(** * TrendsAGI Python client: dispatch routine and operation wrappers

    A shallow embedding of [trendsagi/client.py]: the class
    [TrendsAGIClient], its constructor, the internal [_request] helper and
    the public methods built on it, followed by the properties of the
    dispatch routine, of the error classification and of the
    parameter/payload assembly. *)

From Stdlib Require Import ZArith List String Ascii Bool Lia DecimalString.
From Stdlib Require DecimalPos DecimalZ.
Import ListNotations.
Local Open Scope string_scope.
Local Open Scope Z_scope.
Set Warnings "-register-all".

(** ** Python values *)

(** The run-time values that flow through the client: what [response.json()]
    yields, and what callers hand over as arguments (Python checks no
    annotation at run time, so an argument annotated [str] or [bool] may
    still hold [None]).  A [dict] keeps its insertion order and is an
    association list with string keys; a [float] is given by the bit
    pattern of its IEEE double; [PyObject] stands for an instance of any
    other class, given by the name of the class and the truth value that
    [bool()] gives the instance (the client object itself among the
    entries of [locals()]; an empty tuple passed as an argument).
    [response.json()] never yields one. *)
Inductive pyval : Type :=
| PyNone
| PyBool (b : bool)
| PyInt (z : Z)
| PyFloat (bits : Z)
| PyStr (s : string)
| PyList (l : list pyval)
| PyDict (d : list (string * pyval))
| PyObject (cls : string) (truth : bool).

Definition dict : Type := list (string * pyval).

(** [v is None] *)
Definition is_None (v : pyval) : bool :=
  match v with PyNone => true | _ => false end.

(** [bool(v)], the truth value tested by [if v], [not v], [a and b]. *)
Definition truthy (v : pyval) : bool :=
  match v with
  | PyNone => false
  | PyBool b => b
  | PyInt z => negb (z =? 0)
  | PyFloat bits => negb ((bits =? 0) || (bits =? 2 ^ 63))
  | PyStr s => negb (s =? "")%string
  | PyList l => match l with [] => false | _ => true end
  | PyDict d => match d with [] => false | _ => true end
  | PyObject _ truth => truth
  end.

(** [type(v).__name__] *)
Definition type_name (v : pyval) : string :=
  match v with
  | PyNone => "NoneType"
  | PyBool _ => "bool"
  | PyInt _ => "int"
  | PyFloat _ => "float"
  | PyStr _ => "str"
  | PyList _ => "list"
  | PyDict _ => "dict"
  | PyObject cls _ => cls
  end.

(** [d[k]] when present: the first binding of [k]. *)
Fixpoint lookup (k : string) (d : dict) : option pyval :=
  match d with
  | [] => None
  | (k', v) :: rest => if (k' =? k)%string then Some v else lookup k rest
  end.

Definition keys (d : dict) : list string := map fst d.

(** [{k: v for k, v in d.items() if v is not None}] *)
Definition drop_none (d : dict) : dict :=
  filter (fun kv => negb (is_None (snd kv))) d.

(** The decimal digits of an [int], with its sign. *)
Definition str_int (n : Z) : string := NilZero.string_of_int (Z.to_int n).

(** [s.rstrip('/')] *)
Fixpoint rstrip_slash (s : string) : string :=
  match s with
  | EmptyString => EmptyString
  | String c rest =>
      match rstrip_slash rest with
      | EmptyString => if (c =? "/")%char then EmptyString else String c EmptyString
      | kept => String c kept
      end
  end.

(** ** Exceptions *)

(** The exception classes of [requests.exceptions].  Every one of them
    derives from [RequestException]; [JSONDecodeError], raised by
    [response.json()], does so through [InvalidJSONError]. *)
Inductive requests_class : Type :=
| ConnectionError
| Timeout
| TooManyRedirects
| InvalidURL
| InvalidJSONError
| JSONDecodeError.

(** Modelled from the spec: the error classes of [trendsagi/exceptions.py],
    which [client.py] imports and which is not among the sources.  Each
    class carries what [client.py] passes at its raise sites:
    [AuthenticationError] a message only, the four status classes a status
    code and a detail, [TrendsAGIError] (the transport error of the
    taxonomy) a message.  The other constructors are the exceptions of
    [requests] and the built-in ones the methods can raise. *)
Inductive PyExc : Type :=
| RequestException (cls : requests_class) (msg : string)
| AttributeError (msg : string)
| TypeError (msg : string)
| ValueError (msg : string)
| ValidationError (msg : string)
| TrendsAGIError (msg : string)
| AuthenticationError (detail : pyval)
| NotFoundError (status : Z) (detail : pyval)
| ConflictError (status : Z) (detail : pyval)
| RateLimitError (status : Z) (detail : pyval)
| APIError (status : Z) (detail : pyval).

(** [isinstance(e, requests.exceptions.RequestException)] *)
Definition isinstance_RequestException (e : PyExc) : bool :=
  match e with RequestException _ _ => true | _ => false end.

(** [isinstance(e, requests.exceptions.JSONDecodeError)] *)
Definition isinstance_JSONDecodeError (e : PyExc) : bool :=
  match e with RequestException JSONDecodeError _ => true | _ => false end.

(** [str(e)], as interpolated by [f"...{e}"]: the message of the exception.
    The text of the client's own status errors is decided in
    [exceptions.py]; no handler of [client.py] ever formats one. *)
Definition str_exc (e : PyExc) : string :=
  match e with
  | RequestException _ msg | AttributeError msg | TypeError msg
  | ValueError msg | ValidationError msg | TrendsAGIError msg => msg
  | AuthenticationError _ | NotFoundError _ _ | ConflictError _ _
  | RateLimitError _ _ | APIError _ _ => ""
  end.

(** ** Requests, responses and the trace of effects *)

(** The keyword arguments a method forwards to [session.request]. *)
Inductive kwargs : Type :=
| no_kwargs
| kw_params (params : dict)
| kw_json (json : pyval).

Record Request : Type := mkRequest {
  req_method : string;
  req_url : string;
  req_headers : list (string * string);
  req_kwargs : kwargs
}.

(** What the code observes of a [requests.Response]: [status_code], [text]
    and the outcome of [json()], which is the decoded value or the message
    of the [JSONDecodeError] it raises. *)
Record Response : Type := mkResponse {
  status_code : Z;
  text : string;
  json_outcome : string + pyval
}.

(** [session.request] either fails with one of the exceptions of
    [requests] or hands back a response. *)
Inductive Outcome : Type :=
| Failed (cls : requests_class) (msg : string)
| Responded (r : Response).

(** Effects that leave a mark: a request handed to the transport, and a
    decoding of a response body. *)
Inductive Event : Type :=
| NetworkCall (req : Request)
| JsonDecode (r : Response).

Definition Trace : Type := list Event.

Fixpoint network_calls (tr : Trace) : list Request :=
  match tr with
  | [] => []
  | NetworkCall req :: rest => req :: network_calls rest
  | JsonDecode _ :: rest => network_calls rest
  end.

(** ** The monad of Python computations *)

Inductive Result (A : Type) : Type :=
| Return (a : A)
| Raise (e : PyExc).
Arguments Return {A} a.
Arguments Raise {A} e.

(** Sequencing of steps that raise without touching the trace. *)
Definition bind_result {A B} (r : Result A) (f : A -> Result B) : Result B :=
  match r with
  | Return a => f a
  | Raise e => Raise e
  end.

Declare Scope result_scope.
Delimit Scope result_scope with res.
Notation "x <- r ;; k" := (bind_result r (fun x => k))
  (at level 100, r at next level, right associativity) : result_scope.

(** [sys.get_int_max_str_digits()], at CPython's default. *)
Definition int_max_str_digits : nat := 4300.

(** The number of decimal digits of an [int], its sign left out. *)
Definition digits (n : Z) : nat := String.length (str_int (Z.abs n)).

(** The message of the [ValueError] that the conversion of too long an
    [int] raises. *)
Definition int_limit_message : string :=
  "Exceeds the limit (4300 digits) for integer string conversion; "
    ++ "use sys.set_int_max_str_digits() to increase the limit".

(** [f"{n}"] and [str(n)] for an [int]: the conversion raises [ValueError]
    when the number has more digits than the interpreter allows. *)
Definition format_int (n : Z) : Result string :=
  if (int_max_str_digits <? digits n)%nat then
    Raise (ValueError int_limit_message)
  else Return (str_int n).

(** A computation extends the trace (newest event last) and returns or
    raises. *)
Definition Py (A : Type) : Type := Trace -> Result A * Trace.

Definition ret {A} (a : A) : Py A := fun tr => (Return a, tr).

Definition raise {A} (e : PyExc) : Py A := fun tr => (Raise e, tr).

Definition bind {A B} (m : Py A) (f : A -> Py B) : Py B :=
  fun tr =>
    match m tr with
    | (Return a, tr') => f a tr'
    | (Raise e, tr') => (Raise e, tr')
    end.

Definition lift {A} (r : Result A) : Py A := fun tr => (r, tr).

Definition emit (ev : Event) : Py unit := fun tr => (Return tt, (tr ++ [ev])%list).

(** [try: body except C as e: handler(e)], with [C] given by its
    [isinstance] test. *)
Definition try_except {A} (body : Py A) (isinstance : PyExc -> bool)
    (handler : PyExc -> Py A) : Py A :=
  fun tr =>
    match body tr with
    | (Return a, tr') => (Return a, tr')
    | (Raise e, tr') => if isinstance e then handler e tr' else (Raise e, tr')
    end.

Declare Scope py_scope.
Delimit Scope py_scope with py.
Notation "x <- m ;; k" := (bind m (fun x => k))
  (at level 100, m at next level, right associativity) : py_scope.
Notation "m ;;; k" := (bind m (fun _ => k))
  (at level 100, right associativity) : py_scope.

(** [response.json()] *)
Definition response_json (r : Response) : Py pyval :=
  (emit (JsonDecode r) ;;;
   match json_outcome r with
   | inr v => ret v
   | inl msg => raise (RequestException JSONDecodeError msg)
   end)%py.

(** [v.get(key, default)]: only a [dict] has the method. *)
Definition py_get (v : pyval) (key : string) (default : pyval) : Py pyval :=
  match v with
  | PyDict d =>
      ret (match lookup key d with Some x => x | None => default end)
  | _ =>
      raise (AttributeError
               ("'" ++ type_name v ++ "' object has no attribute 'get'"))
  end.

(** [[f(x) for x in v]] iterates over [v]: the items of a [list], the keys
    of a [dict], the characters of a [str]; nothing else here is
    iterable. *)
Definition py_iter (v : pyval) : Result (list pyval) :=
  match v with
  | PyList l => Return l
  | PyDict d => Return (map (fun kv => PyStr (fst kv)) d)
  | PyStr s =>
      Return (map (fun c => PyStr (String c EmptyString)) (list_ascii_of_string s))
  | _ => Raise (TypeError ("'" ++ type_name v ++ "' object is not iterable"))
  end.

Fixpoint map_result {A B} (f : A -> Result B) (l : list A) : Result (list B) :=
  match l with
  | [] => Return []
  | x :: rest =>
      match f x with
      | Raise e => Raise e
      | Return y =>
          match map_result f rest with
          | Raise e => Raise e
          | Return ys => Return (y :: ys)
          end
      end
  end.

(** ** The client *)

(** The state of a client object: the base address and the headers that
    the constructor installs on its [requests.Session]. *)
Record TrendsAGIClient : Type := mkClient {
  base_url : string;
  session_headers : list (string * string)
}.

Definition default_base_url : string := "https://api.trendsagi.com".

(** [TrendsAGIClient.__init__] *)
Definition __init__ (api_key : string) (base_url : string) : Py TrendsAGIClient :=
  if (api_key =? "")%string then
    raise (AuthenticationError (PyStr "API key is required."))
  else
    ret {| base_url := rstrip_slash base_url;
           session_headers := [ ("X-API-Key", api_key);
                                ("Content-Type", "application/json");
                                ("Accept", "application/json") ] |}.

(** The methods of the typed-result classes of [trendsagi/models.py]. *)
Inductive Post : Type :=
| validate (model : string)
| validate_each (model : string)
| validate_if_truthy (model : string)
| discard
| raw.

Record Prepared : Type := mkPrepared {
  p_method : string;
  p_endpoint : string;
  p_kwargs : kwargs;
  p_post : Post
}.

Section Client.

(** The transport together with the remote API: what [session.request]
    answers to a request, given everything that happened before. *)
Variable transport : Trace -> Request -> Outcome.

(** [models.<model>.model_validate(data)]: the typed result, or the
    validation error. *)
Variable model_validate : string -> pyval -> Result pyval.

(** [self._session.request(method, url, **kwargs)] *)
Definition session_request (self : TrendsAGIClient) (method url : string)
    (kw : kwargs) : Py Response :=
  fun tr =>
    let req := mkRequest method url (session_headers self) kw in
    match transport tr req with
    | Failed cls msg => (Raise (RequestException cls msg), (tr ++ [NetworkCall req])%list)
    | Responded r => (Return r, (tr ++ [NetworkCall req])%list)
    end.

(** [TrendsAGIClient._request] *)
Definition _request (self : TrendsAGIClient) (method endpoint : string)
    (kw : kwargs) : Py pyval :=
  let url := base_url self ++ endpoint in
  try_except
    (response <- session_request self method url kw ;;
     if (200 <=? status_code response) && (status_code response <? 300) then
       if status_code response =? 204 then ret PyNone
       else response_json response
     else
       error_detail <-
         try_except
           (body <- response_json response ;;
            py_get body "detail" (PyStr (text response)))
           isinstance_JSONDecodeError
           (fun _ => ret (PyStr (text response))) ;;
       if status_code response =? 401 then
         raise (AuthenticationError error_detail)
       else if status_code response =? 404 then
         raise (NotFoundError (status_code response) error_detail)
       else if status_code response =? 409 then
         raise (ConflictError (status_code response) error_detail)
       else if status_code response =? 429 then
         raise (RateLimitError (status_code response) error_detail)
       else
         raise (APIError (status_code response) error_detail))%py
    isinstance_RequestException
    (fun e => raise (TrendsAGIError
                       ("Network error communicating with API: " ++ str_exc e))).

(** ** The public methods *)

(** A call of a public method with its arguments.  A path parameter is an
    [int]; an argument that becomes a value of the query or body mapping is
    whatever value the caller passes. *)
Inductive Call : Type :=
| get_trends (search sort_by order limit offset period category : pyval)
| get_trend_details (trend_id : Z)
| get_trend_analytics (trend_id : Z) (period start_date end_date : pyval)
| search_insights (key_theme_contains audience_keyword angle_contains
                   sentiment_category overall_topic_category_llm
                   trend_name_contains limit offset sort_by order : pyval)
| get_ai_insights (trend_id : Z) (force_refresh : pyval)
| generate_custom_report (report_request : pyval)
| get_recommendations (limit offset recommendation_type source_trend_query
                       priority status : pyval)
| perform_recommendation_action (recommendation_id : Z) (action feedback : pyval)
| get_tracked_x_users (q min_followers sort_by : pyval)
| get_tracked_x_user (entity_id : Z)
| create_tracked_x_user (handle name description notes : pyval)
| update_tracked_x_user (entity_id : Z) (updates : pyval)
| delete_tracked_x_user (entity_id : Z)
| get_crisis_events (limit offset status keyword severity time_range
                     start_date end_date : pyval)
| get_crisis_event (event_id : Z)
| perform_crisis_event_action (event_id : Z) (action : pyval)
| perform_deep_analysis (query force_refresh : pyval)
| get_topic_interests
| create_topic_interest (keyword alert_condition_type volume_threshold_value
                         percentage_growth_value : pyval)
| delete_topic_interest (interest_id : Z)
| get_export_settings
| save_export_settings (destination config schedule schedule_time is_active
                        config_id : pyval)
| delete_export_setting (config_id : Z)
| get_export_history (limit offset : pyval)
| run_export_now (config_id : Z)
| get_dashboard_stats
| get_recent_notifications (limit : pyval)
| mark_notifications_read (ids : pyval)
| get_available_plans
| get_api_status
| get_api_status_history.

(** The part of each method body that precedes the call of [_request]: the
    local validation, the assembly of the mapping, the HTTP method and the
    endpoint, whose f-string raises when the identifier is too long to
    convert; [p_post] names what the method does with the data that
    [_request] returns. *)
Definition prepare (c : Call) : Result Prepared :=
  match c with
  | get_trends search sort_by order limit offset period category =>
      let locals :=
        [ ("self", PyObject "TrendsAGIClient" true); ("search", search);
          ("sort_by", sort_by); ("order", order); ("limit", limit);
          ("offset", offset); ("period", period); ("category", category) ] in
      let params :=
        filter (fun kv => negb (is_None (snd kv)) && negb (fst kv =? "self")%string)
               locals in
      Return (mkPrepared "GET" "/api/trends" (kw_params params)
                (validate "TrendListResponse"))
  | get_trend_details trend_id =>
      (path_id <- format_int trend_id ;;
       Return (mkPrepared "GET" ("/api/trends/" ++ path_id) no_kwargs
                (validate "TrendDetail")))%res
  | get_trend_analytics trend_id period start_date end_date =>
      let params := [ ("period", period); ("start_date", start_date);
                      ("end_date", end_date) ] in
      let params := drop_none params in
      (path_id <- format_int trend_id ;;
       Return (mkPrepared "GET" ("/api/trends/" ++ path_id ++ "/analytics")
                (kw_params params) (validate "TrendAnalytics")))%res
  | search_insights key_theme_contains audience_keyword angle_contains
      sentiment_category overall_topic_category_llm trend_name_contains
      limit offset sort_by order =>
      let params :=
        [ ("keyThemeContains", key_theme_contains);
          ("audienceKeyword", audience_keyword);
          ("angleContains", angle_contains);
          ("sentimentCategory", sentiment_category);
          ("overallTopicCategoryLlm", overall_topic_category_llm);
          ("trendNameContains", trend_name_contains);
          ("limit", limit); ("offset", offset); ("sort_by", sort_by);
          ("order", order) ] in
      let params := drop_none params in
      Return (mkPrepared "GET" "/api/insights/search" (kw_params params)
                (validate "InsightSearchResponse"))
  | get_ai_insights trend_id force_refresh =>
      (path_id <- format_int trend_id ;;
       Return (mkPrepared "GET" ("/api/trends/" ++ path_id ++ "/ai-insights")
                (kw_params [ ("force_refresh", force_refresh) ])
                (validate_if_truthy "AIInsight")))%res
  | generate_custom_report report_request =>
      Return (mkPrepared "POST" "/api/reports/custom" (kw_json report_request)
                (validate "CustomReport"))
  | get_recommendations limit offset recommendation_type source_trend_query
      priority status =>
      let params :=
        [ ("limit", limit); ("offset", offset); ("type", recommendation_type);
          ("sourceTrendQ", source_trend_query); ("priority", priority);
          ("status", status) ] in
      let params := drop_none params in
      Return (mkPrepared "GET" "/api/intelligence/recommendations"
                (kw_params params) (validate "RecommendationListResponse"))
  | perform_recommendation_action recommendation_id action feedback =>
      if truthy action && truthy feedback then
        Raise (ValueError
                 "Only one of 'action' or 'feedback' can be provided at a time.")
      else if negb (truthy action) && negb (truthy feedback) then
        Raise (ValueError "Either 'action' or 'feedback' must be provided.")
      else
        let payload := [ ("action", action); ("feedback", feedback) ] in
        let payload := drop_none payload in
        (path_id <- format_int recommendation_id ;;
         Return (mkPrepared "POST"
                   ("/api/intelligence/recommendations/"
                      ++ path_id ++ "/action")
                   (kw_json (PyDict payload)) (validate "Recommendation")))%res
  | get_tracked_x_users q min_followers sort_by =>
      let params := [ ("q", q); ("min_followers", min_followers);
                      ("sort_by", sort_by) ] in
      let params := drop_none params in
      Return (mkPrepared "GET" "/api/intelligence/market/x-users"
                (kw_params params) (validate "MarketEntityListResponse"))
  | get_tracked_x_user entity_id =>
      (path_id <- format_int entity_id ;;
       Return (mkPrepared "GET"
                ("/api/intelligence/market/x-users/" ++ path_id)
                no_kwargs (validate "MarketEntity")))%res
  | create_tracked_x_user handle name description notes =>
      let payload := [ ("handle", handle); ("name", name);
                       ("description", description); ("notes", notes) ] in
      let payload := drop_none payload in
      Return (mkPrepared "POST" "/api/intelligence/market/x-users"
                (kw_json (PyDict payload)) (validate "MarketEntity"))
  | update_tracked_x_user entity_id updates =>
      (path_id <- format_int entity_id ;;
       Return (mkPrepared "PUT"
                ("/api/intelligence/market/x-users/" ++ path_id)
                (kw_json updates) (validate "MarketEntity")))%res
  | delete_tracked_x_user entity_id =>
      (path_id <- format_int entity_id ;;
       Return (mkPrepared "DELETE"
                ("/api/intelligence/market/x-users/" ++ path_id)
                no_kwargs discard))%res
  | get_crisis_events limit offset status keyword severity time_range
      start_date end_date =>
      let params :=
        [ ("limit", limit); ("offset", offset); ("status", status);
          ("keyword", keyword); ("severity", severity);
          ("timeRange", time_range); ("startDate", start_date);
          ("endDate", end_date) ] in
      let params := drop_none params in
      Return (mkPrepared "GET" "/api/intelligence/crisis-events"
                (kw_params params) (validate "CrisisEventListResponse"))
  | get_crisis_event event_id =>
      (path_id <- format_int event_id ;;
       Return (mkPrepared "GET"
                ("/api/intelligence/crisis-events/" ++ path_id)
                no_kwargs (validate "CrisisEvent")))%res
  | perform_crisis_event_action event_id action =>
      (path_id <- format_int event_id ;;
       Return (mkPrepared "POST"
                ("/api/intelligence/crisis-events/" ++ path_id ++ "/action")
                (kw_json (PyDict [ ("action", action) ])) (validate "CrisisEvent")))%res
  | perform_deep_analysis query force_refresh =>
      Return (mkPrepared "POST" "/api/intelligence/deep-analysis"
                (kw_json (PyDict [ ("query", query);
                                   ("force_refresh", force_refresh) ]))
                (validate "DeepAnalysis"))
  | get_topic_interests =>
      Return (mkPrepared "GET" "/api/user/topic-interests" no_kwargs
                (validate_each "TopicInterest"))
  | create_topic_interest keyword alert_condition_type volume_threshold_value
      percentage_growth_value =>
      let payload :=
        [ ("keyword", keyword); ("alert_condition_type", alert_condition_type);
          ("volume_threshold_value", volume_threshold_value);
          ("percentage_growth_value", percentage_growth_value) ] in
      let payload := drop_none payload in
      Return (mkPrepared "POST" "/api/user/topic-interests"
                (kw_json (PyDict payload)) (validate "TopicInterest"))
  | delete_topic_interest interest_id =>
      (path_id <- format_int interest_id ;;
       Return (mkPrepared "DELETE"
                ("/api/user/topic-interests/" ++ path_id)
                no_kwargs discard))%res
  | get_export_settings =>
      Return (mkPrepared "GET" "/api/user/export/settings" no_kwargs
                (validate_each "ExportConfiguration"))
  | save_export_settings destination config schedule schedule_time is_active
      config_id =>
      let payload :=
        [ ("id", config_id); ("destination", destination); ("config", config);
          ("schedule", schedule); ("schedule_time", schedule_time);
          ("is_active", is_active) ] in
      let payload := drop_none payload in
      Return (mkPrepared "POST" "/api/user/export/settings"
                (kw_json (PyDict payload)) (validate "ExportConfiguration"))
  | delete_export_setting config_id =>
      (path_id <- format_int config_id ;;
       Return (mkPrepared "DELETE"
                ("/api/user/export/settings/" ++ path_id)
                no_kwargs discard))%res
  | get_export_history limit offset =>
      Return (mkPrepared "GET" "/api/user/export/history"
                (kw_params [ ("limit", limit); ("offset", offset) ])
                (validate "ExportHistoryResponse"))
  | run_export_now config_id =>
      (path_id <- format_int config_id ;;
       Return (mkPrepared "POST"
                ("/api/user/export/configurations/" ++ path_id ++ "/run-now")
                no_kwargs (validate "ExportExecutionLog")))%res
  | get_dashboard_stats =>
      Return (mkPrepared "GET" "/api/user/dashboard/stats" no_kwargs
                (validate "DashboardStats"))
  | get_recent_notifications limit =>
      Return (mkPrepared "GET" "/api/user/notifications/recent"
                (kw_params [ ("limit", limit) ])
                (validate "NotificationListResponse"))
  | mark_notifications_read ids =>
      let payload := [ ("ids", if is_None ids then PyList [] else ids) ] in
      Return (mkPrepared "POST" "/api/user/notifications/mark-read"
                (kw_json (PyDict payload)) raw)
  | get_available_plans =>
      Return (mkPrepared "GET" "/api/plans" no_kwargs
                (validate_each "SubscriptionPlan"))
  | get_api_status =>
      Return (mkPrepared "GET" "/api/status" no_kwargs (validate "StatusPage"))
  | get_api_status_history =>
      Return (mkPrepared "GET" "/api/status-history" no_kwargs
                (validate "StatusHistoryResponse"))
  end.

(** What a method does with [response_data]. *)
Definition finish (post : Post) (response_data : pyval) : Result pyval :=
  match post with
  | validate model => model_validate model response_data
  | validate_each model =>
      match py_iter response_data with
      | Raise e => Raise e
      | Return items =>
          match map_result (model_validate model) items with
          | Raise e => Raise e
          | Return parsed => Return (PyList parsed)
          end
      end
  | validate_if_truthy model =>
      if truthy response_data then model_validate model response_data
      else Return PyNone
  | discard => Return PyNone
  | raw => Return response_data
  end.

(** A whole method call on the client [self]. *)
Definition invoke (self : TrendsAGIClient) (c : Call) : Py pyval :=
  (p <- lift (prepare c) ;;
   response_data <- _request self (p_method p) (p_endpoint p) (p_kwargs p) ;;
   lift (finish (p_post p) response_data))%py.

End Client.

(** ** Vocabulary of the properties *)

(** The error taxonomy: the kinds under which a failed dispatch is
    reported. *)
Inductive ErrorKind : Type :=
| authentication
| not_found
| conflict
| rate_limit
| api_error
| transport_error.

(** The kind of an exception, when it belongs to the taxonomy. *)
Definition kind_of (e : PyExc) : option ErrorKind :=
  match e with
  | AuthenticationError _ => Some authentication
  | NotFoundError _ _ => Some not_found
  | ConflictError _ _ => Some conflict
  | RateLimitError _ _ => Some rate_limit
  | APIError _ _ => Some api_error
  | TrendsAGIError _ => Some transport_error
  | RequestException _ _ | AttributeError _ | TypeError _ | ValueError _
  | ValidationError _ => None
  end.

(** The status code an error was built with. *)
Definition carried_status (e : PyExc) : option Z :=
  match e with
  | NotFoundError s _ | ConflictError s _ | RateLimitError s _ | APIError s _ =>
      Some s
  | _ => None
  end.

(** The detail an error was built with. *)
Definition carried_detail (e : PyExc) : option pyval :=
  match e with
  | AuthenticationError d | NotFoundError _ d | ConflictError _ d
  | RateLimitError _ d | APIError _ d => Some d
  | _ => None
  end.

(** The request that [_request] hands to the transport. *)
Definition request_for (self : TrendsAGIClient) (method endpoint : string)
    (kw : kwargs) : Request :=
  mkRequest method (base_url self ++ endpoint) (session_headers self) kw.

(** The top-level entries of the mapping that a call transmits as query
    parameters or as JSON body; empty when the call is rejected locally or
    transmits no mapping. *)
Definition wire_mapping (c : Call) : dict :=
  match prepare c with
  | Raise _ => []
  | Return p =>
      match p_kwargs p with
      | kw_params params => params
      | kw_json (PyDict payload) => payload
      | _ => []
      end
  end.

(** The arguments whose annotation is [Optional[...]], each under the key
    it has on the wire. *)
Definition optional_fields (c : Call) : dict :=
  match c with
  | get_trends search _ _ _ _ _ category =>
      [ ("search", search); ("category", category) ]
  | get_trend_analytics _ _ start_date end_date =>
      [ ("start_date", start_date); ("end_date", end_date) ]
  | search_insights key_theme_contains audience_keyword angle_contains
      sentiment_category overall_topic_category_llm trend_name_contains _ _ _ _ =>
      [ ("keyThemeContains", key_theme_contains);
        ("audienceKeyword", audience_keyword);
        ("angleContains", angle_contains);
        ("sentimentCategory", sentiment_category);
        ("overallTopicCategoryLlm", overall_topic_category_llm);
        ("trendNameContains", trend_name_contains) ]
  | get_recommendations _ _ recommendation_type source_trend_query priority _ =>
      [ ("type", recommendation_type); ("sourceTrendQ", source_trend_query);
        ("priority", priority) ]
  | perform_recommendation_action _ action feedback =>
      [ ("action", action); ("feedback", feedback) ]
  | get_tracked_x_users q min_followers _ =>
      [ ("q", q); ("min_followers", min_followers) ]
  | create_tracked_x_user _ name description notes =>
      [ ("name", name); ("description", description); ("notes", notes) ]
  | get_crisis_events _ _ _ keyword severity _ start_date end_date =>
      [ ("keyword", keyword); ("severity", severity);
        ("startDate", start_date); ("endDate", end_date) ]
  | create_topic_interest _ _ volume_threshold_value percentage_growth_value =>
      [ ("volume_threshold_value", volume_threshold_value);
        ("percentage_growth_value", percentage_growth_value) ]
  | save_export_settings _ _ _ schedule_time _ config_id =>
      [ ("schedule_time", schedule_time); ("id", config_id) ]
  | mark_notifications_read ids => [ ("ids", ids) ]
  | _ => []
  end.

(** The arguments whose annotation is [bool], each under its key on the
    wire. *)
Definition boolean_fields (c : Call) : dict :=
  match c with
  | get_ai_insights _ force_refresh => [ ("force_refresh", force_refresh) ]
  | perform_deep_analysis _ force_refresh => [ ("force_refresh", force_refresh) ]
  | save_export_settings _ _ _ _ is_active _ => [ ("is_active", is_active) ]
  | _ => []
  end.

(** "Every entry whose argument is unset is left out", for the given
    fields of a call. *)
Definition omits_unset (fields : Call -> dict) (c : Call) : Prop :=
  forall k, In (k, PyNone) (fields c) -> lookup k (wire_mapping c) = None.

(** ** Sample surroundings for the examples *)

(** A transport that answers every request the same way. *)
Definition always (o : Outcome) : Trace -> Request -> Outcome := fun _ _ => o.

(** A deserialiser that accepts every payload as it is. *)
Definition accept_any : string -> pyval -> Result pyval := fun _ v => Return v.

(** A client as the constructor builds it from the key ["k-123"]. *)
Definition sample_client : TrendsAGIClient :=
  {| base_url := default_base_url;
     session_headers := [ ("X-API-Key", "k-123");
                          ("Content-Type", "application/json");
                          ("Accept", "application/json") ] |}.

(** [get_trends()] with every argument at its default. *)
Definition get_trends_defaults : Call :=
  get_trends PyNone (PyStr "volume") (PyStr "desc") (PyInt 20) (PyInt 0)
             (PyStr "24h") PyNone.

(** The error that the status chain of [_request] builds from a status
    code and a detail. *)
Definition classified (status : Z) (detail : pyval) : PyExc :=
  if status =? 401 then AuthenticationError detail
  else if status =? 404 then NotFoundError status detail
  else if status =? 409 then ConflictError status detail
  else if status =? 429 then RateLimitError status detail
  else APIError status detail.

(** The detail that an error response yields: the [detail] entry of a
    body that decodes to a JSON object, the raw text when that object has
    no such entry or when the body is no JSON at all.  A body that decodes
    to anything but an object yields none. *)
Definition extracted_detail (r : Response) : option pyval :=
  match json_outcome r with
  | inl _ => Some (PyStr (text r))
  | inr (PyDict d) =>
      Some (match lookup "detail" d with Some x => x | None => PyStr (text r) end)
  | inr _ => None
  end.

(** "The call raises an error of kind [k] that carries [status] and
    [detail]." *)
Definition raises_with (res : Result pyval) (k : ErrorKind) (status : Z)
    (detail : pyval) : Prop :=
  exists e, res = Raise e /\ kind_of e = Some k /\
            carried_status e = Some status /\ carried_detail e = Some detail.

(** The message of the [JSONDecodeError] for a body that does not start
    a JSON value. *)
Definition expecting_value : string :=
  "Expecting value: line 1 column 1 (char 0)".

(** Sample responses. *)
Definition unauthorized_plain : Response :=
  mkResponse 401 "Unauthorized" (inl expecting_value).

Definition not_found_plain : Response :=
  mkResponse 404 "Not Found" (inl expecting_value).

Definition server_error_array : Response :=
  mkResponse 500 "[]" (inr (PyList [])).

Definition ok_html : Response :=
  mkResponse 200 "<html>maintenance</html>" (inl expecting_value).

Definition ok_object : Response :=
  mkResponse 200 "{}" (inr (PyDict [])).

Definition no_content : Response :=
  mkResponse 204 "" (inl expecting_value).

Definition forbidden_object : Response :=
  mkResponse 403 "{}" (inr (PyDict [])).

(** An argument is set when it is not [None]. *)
Definition is_set (v : pyval) : bool := negb (is_None v).

(** "The call goes on to the network": it hands one request to the
    transport. *)
Definition dispatched (out : Result pyval * Trace) (tr : Trace) : Prop :=
  exists req, network_calls (snd out) = (network_calls tr ++ [req])%list.

(** ** Vocabulary of the further properties *)

(** [s.endswith('/')] *)
Fixpoint ends_with_slash (s : string) : bool :=
  match s with
  | EmptyString => false
  | String c rest =>
      match rest with
      | EmptyString => (c =? "/")%char
      | String _ _ => ends_with_slash rest
      end
  end.

(** ['/' * n] *)
Fixpoint slashes (n : nat) : string :=
  match n with
  | O => EmptyString
  | S m => String "/" (slashes m)
  end.

(** The number of body decodings recorded in a trace. *)
Fixpoint json_decodes (tr : Trace) : nat :=
  match tr with
  | [] => O
  | NetworkCall _ :: rest => json_decodes rest
  | JsonDecode _ :: rest => S (json_decodes rest)
  end.

(** The arguments of a call that the method places in its query or body
    mapping, each under the key the method gives it.  The two methods that
    forward a mapping of the caller as the body place none. *)
Definition field_arguments (c : Call) : dict :=
  match c with
  | get_trends search sort_by order limit offset period category =>
      [ ("search", search); ("sort_by", sort_by); ("order", order);
        ("limit", limit); ("offset", offset); ("period", period);
        ("category", category) ]
  | get_trend_analytics _ period start_date end_date =>
      [ ("period", period); ("start_date", start_date); ("end_date", end_date) ]
  | search_insights key_theme_contains audience_keyword angle_contains
      sentiment_category overall_topic_category_llm trend_name_contains
      limit offset sort_by order =>
      [ ("keyThemeContains", key_theme_contains);
        ("audienceKeyword", audience_keyword);
        ("angleContains", angle_contains);
        ("sentimentCategory", sentiment_category);
        ("overallTopicCategoryLlm", overall_topic_category_llm);
        ("trendNameContains", trend_name_contains);
        ("limit", limit); ("offset", offset); ("sort_by", sort_by);
        ("order", order) ]
  | get_ai_insights _ force_refresh => [ ("force_refresh", force_refresh) ]
  | get_recommendations limit offset recommendation_type source_trend_query
      priority status =>
      [ ("limit", limit); ("offset", offset); ("type", recommendation_type);
        ("sourceTrendQ", source_trend_query); ("priority", priority);
        ("status", status) ]
  | perform_recommendation_action _ action feedback =>
      [ ("action", action); ("feedback", feedback) ]
  | get_tracked_x_users q min_followers sort_by =>
      [ ("q", q); ("min_followers", min_followers); ("sort_by", sort_by) ]
  | create_tracked_x_user handle name description notes =>
      [ ("handle", handle); ("name", name); ("description", description);
        ("notes", notes) ]
  | get_crisis_events limit offset status keyword severity time_range
      start_date end_date =>
      [ ("limit", limit); ("offset", offset); ("status", status);
        ("keyword", keyword); ("severity", severity);
        ("timeRange", time_range); ("startDate", start_date);
        ("endDate", end_date) ]
  | perform_crisis_event_action _ action => [ ("action", action) ]
  | perform_deep_analysis query force_refresh =>
      [ ("query", query); ("force_refresh", force_refresh) ]
  | create_topic_interest keyword alert_condition_type volume_threshold_value
      percentage_growth_value =>
      [ ("keyword", keyword); ("alert_condition_type", alert_condition_type);
        ("volume_threshold_value", volume_threshold_value);
        ("percentage_growth_value", percentage_growth_value) ]
  | save_export_settings destination config schedule schedule_time is_active
      config_id =>
      [ ("id", config_id); ("destination", destination); ("config", config);
        ("schedule", schedule); ("schedule_time", schedule_time);
        ("is_active", is_active) ]
  | get_export_history limit offset => [ ("limit", limit); ("offset", offset) ]
  | get_recent_notifications limit => [ ("limit", limit) ]
  | mark_notifications_read ids => [ ("ids", ids) ]
  | _ => []
  end.

(** The methods that forward a mapping of the caller as the JSON body. *)
Definition forwards_body (c : Call) : bool :=
  match c with
  | generate_custom_report _ | update_tracked_x_user _ _ => true
  | _ => false
  end.

(** The methods whose mapping is built without the [is not None]
    condition. *)
Definition unfiltered (c : Call) : bool :=
  match c with
  | get_ai_insights _ _ | generate_custom_report _
  | update_tracked_x_user _ _ | perform_crisis_event_action _ _
  | perform_deep_analysis _ _ | get_export_history _ _
  | get_recent_notifications _ => true
  | _ => false
  end.

(** The [delete_*] methods. *)
Definition is_deletion (c : Call) : bool :=
  match c with
  | delete_tracked_x_user _ | delete_topic_interest _
  | delete_export_setting _ => true
  | _ => false
  end.

(** The methods that return a list of typed items, with the class of the
    items. *)
Definition listing_model (c : Call) : option string :=
  match c with
  | get_topic_interests => Some "TopicInterest"
  | get_export_settings => Some "ExportConfiguration"
  | get_available_plans => Some "SubscriptionPlan"
  | _ => None
  end.

(** A deserialiser that rejects every payload. *)
Definition reject_all : string -> pyval -> Result pyval :=
  fun model _ => Raise (ValidationError model).

(** A deserialiser that accepts integers only. *)
Definition accept_int : string -> pyval -> Result pyval :=
  fun model v =>
    match v with
    | PyInt _ => Return v
    | _ => Raise (ValidationError model)
    end.

(** The name of the method that a call invokes. *)
Definition operation_name (c : Call) : string :=
  match c with
  | get_trends _ _ _ _ _ _ _ => "get_trends"
  | get_trend_details _ => "get_trend_details"
  | get_trend_analytics _ _ _ _ => "get_trend_analytics"
  | search_insights _ _ _ _ _ _ _ _ _ _ => "search_insights"
  | get_ai_insights _ _ => "get_ai_insights"
  | generate_custom_report _ => "generate_custom_report"
  | get_recommendations _ _ _ _ _ _ => "get_recommendations"
  | perform_recommendation_action _ _ _ => "perform_recommendation_action"
  | get_tracked_x_users _ _ _ => "get_tracked_x_users"
  | get_tracked_x_user _ => "get_tracked_x_user"
  | create_tracked_x_user _ _ _ _ => "create_tracked_x_user"
  | update_tracked_x_user _ _ => "update_tracked_x_user"
  | delete_tracked_x_user _ => "delete_tracked_x_user"
  | get_crisis_events _ _ _ _ _ _ _ _ => "get_crisis_events"
  | get_crisis_event _ => "get_crisis_event"
  | perform_crisis_event_action _ _ => "perform_crisis_event_action"
  | perform_deep_analysis _ _ => "perform_deep_analysis"
  | get_topic_interests => "get_topic_interests"
  | create_topic_interest _ _ _ _ => "create_topic_interest"
  | delete_topic_interest _ => "delete_topic_interest"
  | get_export_settings => "get_export_settings"
  | save_export_settings _ _ _ _ _ _ => "save_export_settings"
  | delete_export_setting _ => "delete_export_setting"
  | get_export_history _ _ => "get_export_history"
  | run_export_now _ => "run_export_now"
  | get_dashboard_stats => "get_dashboard_stats"
  | get_recent_notifications _ => "get_recent_notifications"
  | mark_notifications_read _ => "mark_notifications_read"
  | get_available_plans => "get_available_plans"
  | get_api_status => "get_api_status"
  | get_api_status_history => "get_api_status_history"
  end.

(** The identifier that a call substitutes into its path, if any. *)
Definition path_parameter (c : Call) : option Z :=
  match c with
  | get_trend_details id | get_trend_analytics id _ _ _ | get_ai_insights id _
  | perform_recommendation_action id _ _ | get_tracked_x_user id
  | update_tracked_x_user id _ | delete_tracked_x_user id
  | get_crisis_event id | perform_crisis_event_action id _
  | delete_topic_interest id | delete_export_setting id
  | run_export_now id => Some id
  | _ => None
  end.

(** ['/' in s] *)
Fixpoint has_slash (s : string) : bool :=
  match s with
  | EmptyString => false
  | String c rest => (c =? "/")%char || has_slash rest
  end.

(** The double-quote character, and an error response whose body is the
    JSON object with the single entry [detail] holding a one-element
    array. *)
Definition dq : string := String (Ascii.ascii_of_nat 34) EmptyString.

Definition unprocessable_detail : Response :=
  mkResponse 422
    ("{" ++ dq ++ "detail" ++ dq ++ ": [" ++ dq ++ "limit" ++ dq ++ "]}")
    (inr (PyDict [ ("detail", PyList [PyStr "limit"]) ])).

(** * Properties *)

(** ** The conversion of identifiers *)

Lemma format_int_ok n :
  (digits n <= int_max_str_digits)%nat -> format_int n = Return (str_int n).
Proof.
  intros H. unfold format_int.
  destruct (int_max_str_digits <? digits n)%nat eqn:E; [| reflexivity].
  apply Nat.ltb_lt in E. lia.
Qed.

Lemma format_int_return n s :
  format_int n = Return s ->
  s = str_int n /\ (digits n <= int_max_str_digits)%nat.
Proof.
  unfold format_int.
  destruct (int_max_str_digits <? digits n)%nat eqn:E; [discriminate|].
  intros H. injection H as <-. apply Nat.ltb_ge in E. auto.
Qed.

Lemma format_int_raise n e :
  format_int n = Raise e ->
  e = ValueError int_limit_message /\ (int_max_str_digits < digits n)%nat.
Proof.
  unfold format_int.
  destruct (int_max_str_digits <? digits n)%nat eqn:E; [| discriminate].
  intros H. injection H as <-. apply Nat.ltb_lt in E. auto.
Qed.

(** ** How [_request] runs, case by case *)

Section Dispatch.

Variable transport : Trace -> Request -> Outcome.
Variables (self : TrendsAGIClient) (method endpoint : string) (kw : kwargs).
Variable tr : Trace.

Local Abbreviation req := (request_for self method endpoint kw).
Local Abbreviation run := (_request transport self method endpoint kw tr).

Ltac start H :=
  unfold _request, try_except, bind, session_request, request_for in *;
  rewrite H; cbn [status_code text json_outcome].

Lemma dispatch_transport_failure cls msg :
  transport tr req = Failed cls msg ->
  run = (Raise (TrendsAGIError ("Network error communicating with API: " ++ msg)),
         (tr ++ [NetworkCall req])%list).
Proof. intros H. start H. reflexivity. Qed.

Lemma dispatch_204 r :
  transport tr req = Responded r ->
  status_code r = 204 ->
  run = (Return PyNone, (tr ++ [NetworkCall req])%list).
Proof. intros H E. start H. rewrite E. reflexivity. Qed.

Lemma in_2xx_test s : 200 <= s < 300 -> (200 <=? s) && (s <? 300) = true.
Proof.
  intros [A B].
  apply andb_true_intro; split; [apply Z.leb_le | apply Z.ltb_lt]; lia.
Qed.

Lemma not_2xx_test s :
  ~ (200 <= s < 300) -> (200 <=? s) && (s <? 300) = false.
Proof.
  intros N. destruct (200 <=? s) eqn:A; destruct (s <? 300) eqn:B; try reflexivity.
  exfalso. apply N. apply Z.leb_le in A. apply Z.ltb_lt in B. lia.
Qed.

Lemma dispatch_2xx_json r v :
  transport tr req = Responded r ->
  200 <= status_code r < 300 -> status_code r <> 204 ->
  json_outcome r = inr v ->
  run = (Return v, (tr ++ [NetworkCall req; JsonDecode r])%list).
Proof.
  intros H I N J. start H. rewrite (in_2xx_test _ I).
  apply Z.eqb_neq in N. rewrite N.
  unfold response_json, bind, emit, ret. rewrite J.
  rewrite <- app_assoc. reflexivity.
Qed.

Lemma dispatch_2xx_undecodable r msg :
  transport tr req = Responded r ->
  200 <= status_code r < 300 -> status_code r <> 204 ->
  json_outcome r = inl msg ->
  run = (Raise (TrendsAGIError ("Network error communicating with API: " ++ msg)),
         (tr ++ [NetworkCall req; JsonDecode r])%list).
Proof.
  intros H I N J. start H. rewrite (in_2xx_test _ I).
  apply Z.eqb_neq in N. rewrite N.
  unfold response_json, bind, emit, raise. rewrite J. cbn.
  rewrite <- app_assoc. reflexivity.
Qed.

Ltac status_chain :=
  unfold classified, raise;
  repeat match goal with
         | |- context [?s =? ?n] => destruct (s =? n)
         end;
  reflexivity.

Lemma dispatch_error_undecodable r msg :
  transport tr req = Responded r ->
  ~ (200 <= status_code r < 300) ->
  json_outcome r = inl msg ->
  run = (Raise (classified (status_code r) (PyStr (text r))),
         (tr ++ [NetworkCall req; JsonDecode r])%list).
Proof.
  intros H I J. start H. rewrite (not_2xx_test _ I).
  unfold response_json, bind, emit, ret. rewrite J. cbn.
  rewrite <- app_assoc. status_chain.
Qed.

Lemma dispatch_error_object r d :
  transport tr req = Responded r ->
  ~ (200 <= status_code r < 300) ->
  json_outcome r = inr (PyDict d) ->
  run = (Raise (classified (status_code r)
                  (match lookup "detail" d with
                   | Some x => x
                   | None => PyStr (text r)
                   end)),
         (tr ++ [NetworkCall req; JsonDecode r])%list).
Proof.
  intros H I J. start H. rewrite (not_2xx_test _ I).
  unfold response_json, bind, emit, ret. rewrite J. cbn.
  rewrite <- app_assoc. status_chain.
Qed.

Lemma dispatch_error_not_object r v :
  transport tr req = Responded r ->
  ~ (200 <= status_code r < 300) ->
  json_outcome r = inr v ->
  (forall d, v <> PyDict d) ->
  run = (Raise (AttributeError ("'" ++ type_name v ++ "' object has no attribute 'get'")),
         (tr ++ [NetworkCall req; JsonDecode r])%list).
Proof.
  intros H I J N. start H. rewrite (not_2xx_test _ I).
  unfold response_json, bind, emit, raise, ret. rewrite J. cbn.
  rewrite <- app_assoc.
  destruct v; try reflexivity. exfalso. exact (N d eq_refl).
Qed.

Lemma carried_detail_classified s d : carried_detail (classified s d) = Some d.
Proof. status_chain. Qed.

Lemma kind_of_classified s d : exists k, kind_of (classified s d) = Some k.
Proof.
  unfold classified.
  repeat match goal with
         | |- context [?s =? ?n] => destruct (s =? n)
         end; eexists; reflexivity.
Qed.

(** The error raised on a response outside the 2xx range whose body yields
    a detail. *)
Lemma dispatch_error r detail :
  transport tr req = Responded r ->
  ~ (200 <= status_code r < 300) ->
  extracted_detail r = Some detail ->
  fst run = Raise (classified (status_code r) detail).
Proof.
  intros H I D. unfold extracted_detail in D.
  destruct (json_outcome r) as [msg | v] eqn:J.
  - injection D as <-. rewrite (dispatch_error_undecodable r msg H I J). reflexivity.
  - destruct v; try discriminate. injection D as <-.
    rewrite (dispatch_error_object r d H I J). reflexivity.
Qed.

(** Outside the 2xx range [_request] raises, whatever the body. *)
Lemma dispatch_not_2xx_raises r :
  transport tr req = Responded r ->
  ~ (200 <= status_code r < 300) ->
  exists e, fst run = Raise e.
Proof.
  intros H I. destruct (json_outcome r) as [msg | v] eqn:J.
  - rewrite (dispatch_error_undecodable r msg H I J). eexists. reflexivity.
  - destruct v;
      try (rewrite (dispatch_error_not_object r _ H I J)
             by (intros d'; discriminate); eexists; reflexivity).
    rewrite (dispatch_error_object r d H I J). eexists. reflexivity.
Qed.

End Dispatch.

(** ** Outcomes of a dispatch *)

(** A failed dispatch stays inside the taxonomy as long as no error
    response carries a JSON body that is not an object. *)
Lemma dispatch_failure_in_taxonomy transport self method endpoint kw tr e :
  (forall r, transport tr (request_for self method endpoint kw) = Responded r ->
             ~ (200 <= status_code r < 300) -> extracted_detail r <> None) ->
  fst (_request transport self method endpoint kw tr) = Raise e ->
  exists k, kind_of e = Some k.
Proof.
  intros D R.
  destruct (transport tr (request_for self method endpoint kw))
    as [cls msg | r] eqn:H.
  - rewrite (dispatch_transport_failure _ _ _ _ _ _ cls msg H) in R.
    injection R as <-. eexists. reflexivity.
  - destruct (Z_le_gt_dec 200 (status_code r)) as [A | A];
      [destruct (Z_lt_ge_dec (status_code r) 300) as [B | B] |].
    + destruct (Z.eq_dec (status_code r) 204) as [E | N].
      * rewrite (dispatch_204 _ _ _ _ _ _ r H E) in R. discriminate.
      * destruct (json_outcome r) as [msg | w] eqn:J.
        -- rewrite (dispatch_2xx_undecodable _ _ _ _ _ _ r msg H (conj A B) N J) in R.
           injection R as <-. eexists. reflexivity.
        -- rewrite (dispatch_2xx_json _ _ _ _ _ _ r w H (conj A B) N J) in R.
           discriminate.
    + assert (I : ~ (200 <= status_code r < 300)) by lia.
      destruct (extracted_detail r) as [d |] eqn:X; [| destruct (D r eq_refl I X)].
      rewrite (dispatch_error _ _ _ _ _ _ r d H I X) in R. injection R as <-.
      apply kind_of_classified.
    + assert (I : ~ (200 <= status_code r < 300)) by lia.
      destruct (extracted_detail r) as [d |] eqn:X; [| destruct (D r eq_refl I X)].
      rewrite (dispatch_error _ _ _ _ _ _ r d H I X) in R. injection R as <-.
      apply kind_of_classified.
Qed.

(** C1 (amended): on a response whose status lies outside [200, 300) and
    whose body is no JSON or a JSON object, [_request] raises
    [AuthenticationError] built from the detail alone for 401,
    [NotFoundError], [ConflictError], [RateLimitError] built from the
    status code and the detail for 404, 409, 429, and [APIError] built
    from the status code and the detail for every other status. *)
Theorem C1_status_classification transport self method endpoint kw tr r detail :
  transport tr (request_for self method endpoint kw) = Responded r ->
  ~ (200 <= status_code r < 300) ->
  extracted_detail r = Some detail ->
  (status_code r = 401 ->
   fst (_request transport self method endpoint kw tr) =
   Raise (AuthenticationError detail)) /\
  (status_code r = 404 ->
   fst (_request transport self method endpoint kw tr) =
   Raise (NotFoundError 404 detail)) /\
  (status_code r = 409 ->
   fst (_request transport self method endpoint kw tr) =
   Raise (ConflictError 409 detail)) /\
  (status_code r = 429 ->
   fst (_request transport self method endpoint kw tr) =
   Raise (RateLimitError 429 detail)) /\
  (status_code r <> 401 -> status_code r <> 404 ->
   status_code r <> 409 -> status_code r <> 429 ->
   fst (_request transport self method endpoint kw tr) =
   Raise (APIError (status_code r) detail)).
Proof.
  intros H I D. rewrite (dispatch_error _ _ _ _ _ _ r detail H I D).
  repeat split.
  - intros E. rewrite E. reflexivity.
  - intros E. rewrite E. reflexivity.
  - intros E. rewrite E. reflexivity.
  - intros E. rewrite E. reflexivity.
  - intros N1 N2 N3 N4. unfold classified.
    apply Z.eqb_neq in N1, N2, N3, N4. rewrite N1, N2, N3, N4. reflexivity.
Qed.

(** C5: a response with status 204 makes [_request] return [None] with no
    decoding of the body; any other status in [200, 300) makes it decode
    the body and return the decoded value; and [_request] returns in no
    other situation. *)
Theorem C5_success_paths transport self method endpoint kw tr :
  (forall r,
     transport tr (request_for self method endpoint kw) = Responded r ->
     status_code r = 204 ->
     _request transport self method endpoint kw tr =
     (Return PyNone,
      (tr ++ [NetworkCall (request_for self method endpoint kw)])%list)) /\
  (forall r v,
     transport tr (request_for self method endpoint kw) = Responded r ->
     200 <= status_code r < 300 -> status_code r <> 204 ->
     json_outcome r = inr v ->
     _request transport self method endpoint kw tr =
     (Return v,
      (tr ++ [NetworkCall (request_for self method endpoint kw);
              JsonDecode r])%list)) /\
  (forall v tr',
     _request transport self method endpoint kw tr = (Return v, tr') ->
     exists r,
       transport tr (request_for self method endpoint kw) = Responded r /\
       200 <= status_code r < 300 /\
       (status_code r = 204 /\ v = PyNone \/
        status_code r <> 204 /\ json_outcome r = inr v)).
Proof.
  split; [exact (dispatch_204 _ _ _ _ _ _) |
          split; [exact (dispatch_2xx_json _ _ _ _ _ _) |]].
  intros v tr' R.
  destruct (transport tr (request_for self method endpoint kw))
    as [cls msg | r] eqn:H.
  - rewrite (dispatch_transport_failure _ _ _ _ _ _ cls msg H) in R. discriminate.
  - exists r. split; [reflexivity|].
    assert (I : 200 <= status_code r < 300).
    { destruct (Z_le_gt_dec 200 (status_code r)) as [A | A];
        [destruct (Z_lt_ge_dec (status_code r) 300) as [B | B] |];
        [lia | exfalso | exfalso];
        (destruct (dispatch_not_2xx_raises _ _ _ _ _ _ r H) as [e F];
         [lia | rewrite R in F; discriminate]). }
    split; [exact I|].
    destruct (Z.eq_dec (status_code r) 204) as [E | N].
    + left. rewrite (dispatch_204 _ _ _ _ _ _ r H E) in R.
      injection R as <- _. tauto.
    + right. split; [exact N|].
      destruct (json_outcome r) as [msg | w] eqn:J.
      * rewrite (dispatch_2xx_undecodable _ _ _ _ _ _ r msg H I N J) in R.
        discriminate.
      * rewrite (dispatch_2xx_json _ _ _ _ _ _ r w H I N J) in R.
        injection R as <- _. reflexivity.
Qed.

(** C6: on a response whose status lies outside [200, 300) and whose body
    is no JSON, the error that [_request] raises carries the raw response
    text as its detail. *)
Theorem C6_undecodable_body_detail transport self method endpoint kw tr r msg :
  transport tr (request_for self method endpoint kw) = Responded r ->
  ~ (200 <= status_code r < 300) ->
  json_outcome r = inl msg ->
  exists e,
    fst (_request transport self method endpoint kw tr) = Raise e /\
    carried_detail e = Some (PyStr (text r)).
Proof.
  intros H I J. exists (classified (status_code r) (PyStr (text r))).
  rewrite (dispatch_error_undecodable _ _ _ _ _ _ r msg H I J).
  split; [reflexivity | apply carried_detail_classified].
Qed.

(** C10: on a response whose status lies outside [200, 300) and whose body
    decodes to a JSON object with no ['detail'] key, the error that
    [_request] raises carries the raw response text as its detail. *)
Theorem C10_object_without_detail transport self method endpoint kw tr r d :
  transport tr (request_for self method endpoint kw) = Responded r ->
  ~ (200 <= status_code r < 300) ->
  json_outcome r = inr (PyDict d) ->
  lookup "detail" d = None ->
  exists e,
    fst (_request transport self method endpoint kw tr) = Raise e /\
    carried_detail e = Some (PyStr (text r)).
Proof.
  intros H I J L. exists (classified (status_code r) (PyStr (text r))).
  rewrite (dispatch_error_object _ _ _ _ _ _ r d H I J), L.
  split; [reflexivity | apply carried_detail_classified].
Qed.

(** ** The trace of a dispatch *)

Lemma network_calls_app t1 t2 :
  network_calls (t1 ++ t2)%list = (network_calls t1 ++ network_calls t2)%list.
Proof.
  induction t1 as [| ev t1 IH]; [reflexivity|].
  destruct ev; cbn; rewrite IH; reflexivity.
Qed.

(** Whatever the transport answers, [_request] hands it exactly one
    request. *)
Lemma dispatch_network_calls transport self method endpoint kw tr :
  network_calls (snd (_request transport self method endpoint kw tr)) =
  (network_calls tr ++ [request_for self method endpoint kw])%list.
Proof.
  unfold _request, try_except, bind, session_request, request_for.
  destruct (transport tr _) as [cls msg | r]; cbn.
  - rewrite network_calls_app. reflexivity.
  - destruct ((200 <=? status_code r) && (status_code r <? 300)).
    + destruct (status_code r =? 204); cbn.
      * rewrite network_calls_app. reflexivity.
      * unfold response_json, bind, emit, ret, raise.
        destruct (json_outcome r); cbn;
          rewrite !network_calls_app; cbn; rewrite app_nil_r; reflexivity.
    + unfold response_json, py_get, bind, emit, ret, raise.
      destruct (json_outcome r) as [msg | v]; cbn.
      * repeat match goal with
               | |- context [?s =? ?n] => destruct (s =? n)
               end; cbn; rewrite !network_calls_app; cbn;
          rewrite app_nil_r; reflexivity.
      * destruct v; cbn;
          repeat match goal with
                 | |- context [?s =? ?n] => destruct (s =? n)
                 end; cbn; rewrite !network_calls_app; cbn;
          rewrite app_nil_r; reflexivity.
Qed.

Lemma invoke_rejected transport model_validate self c e tr :
  prepare c = Raise e ->
  invoke transport model_validate self c tr = (Raise e, tr).
Proof. intros H. unfold invoke, bind, lift. rewrite H. reflexivity. Qed.

Lemma invoke_trace transport model_validate self c p tr :
  prepare c = Return p ->
  snd (invoke transport model_validate self c tr) =
  snd (_request transport self (p_method p) (p_endpoint p) (p_kwargs p) tr).
Proof.
  intros H. unfold invoke, bind, lift. rewrite H.
  destruct (_request _ _ _ _ _ _) as [[d | e] tr']; reflexivity.
Qed.

(** ** Local validation *)

(** C7 (amended): [perform_recommendation_action] raises [ValueError] and
    leaves the network untouched when [action] and [feedback] are both
    truthy (non-empty strings), and likewise when both are falsy ([None]
    or the empty string); when exactly one of them is truthy and the
    identifier has no more digits than the interpreter converts, it hands
    its POST request, with the entries that are not [None], to the
    transport. *)
Theorem C7_recommendation_action_validation
    transport model_validate self recommendation_id action feedback tr :
  (truthy action = true -> truthy feedback = true ->
   invoke transport model_validate self
     (perform_recommendation_action recommendation_id action feedback) tr =
   (Raise (ValueError
             "Only one of 'action' or 'feedback' can be provided at a time."),
    tr)) /\
  (truthy action = false -> truthy feedback = false ->
   invoke transport model_validate self
     (perform_recommendation_action recommendation_id action feedback) tr =
   (Raise (ValueError "Either 'action' or 'feedback' must be provided."), tr)) /\
  (truthy action <> truthy feedback ->
   (digits recommendation_id <= int_max_str_digits)%nat ->
   network_calls
     (snd (invoke transport model_validate self
             (perform_recommendation_action recommendation_id action feedback)
             tr)) =
   (network_calls tr ++
    [ request_for self "POST"
        ("/api/intelligence/recommendations/" ++ str_int recommendation_id
           ++ "/action")
        (kw_json (PyDict (drop_none [ ("action", action);
                                      ("feedback", feedback) ]))) ])%list).
Proof.
  repeat split.
  - intros A F. apply invoke_rejected. cbn [prepare]. rewrite A, F. reflexivity.
  - intros A F. apply invoke_rejected. cbn [prepare]. rewrite A, F. reflexivity.
  - intros N D.
    assert (P : prepare (perform_recommendation_action recommendation_id action feedback)
                = Return (mkPrepared "POST"
                            ("/api/intelligence/recommendations/"
                               ++ str_int recommendation_id ++ "/action")
                            (kw_json (PyDict (drop_none [ ("action", action);
                                                          ("feedback", feedback) ])))
                            (validate "Recommendation"))).
    { cbn [prepare]. rewrite (format_int_ok _ D).
      destruct (truthy action), (truthy feedback);
        try (exfalso; apply N; reflexivity); reflexivity. }
    rewrite (invoke_trace _ _ _ _ _ _ P), dispatch_network_calls. reflexivity.
Qed.

(** C8: the constructor raises [AuthenticationError] on the empty key and
    returns a client on any other key; in both cases nothing is handed to
    the transport and the trace is left as it was. *)
Theorem C8_constructor base tr :
  __init__ "" base tr =
    (Raise (AuthenticationError (PyStr "API key is required.")), tr) /\
  (forall api_key, api_key <> "" ->
   exists client, __init__ api_key base tr = (Return client, tr)).
Proof.
  split; [reflexivity|].
  intros api_key N. unfold __init__.
  destruct (api_key =? "")%string eqn:E.
  - apply String.eqb_eq in E. contradiction.
  - eexists. reflexivity.
Qed.

(** ** Assembly of the query and body mappings *)

Lemma lookup_not_key k (d : dict) : ~ In k (keys d) -> lookup k d = None.
Proof.
  induction d as [| [k' v'] rest IH]; [reflexivity|].
  cbn. intros N. destruct (k' =? k)%string eqn:E.
  - apply String.eqb_eq in E. exfalso. apply N. left. exact E.
  - apply IH. intros I. apply N. right. exact I.
Qed.

(** A comprehension with a condition keeps, under each key of a literal
    with distinct keys, the value that passes the condition. *)
Lemma lookup_filter (f : string * pyval -> bool) k (d : dict) :
  NoDup (keys d) ->
  lookup k (filter f d) =
  match lookup k d with
  | Some v => if f (k, v) then Some v else None
  | None => None
  end.
Proof.
  induction d as [| [k' v'] rest IH]; [reflexivity|].
  intros ND. inversion ND as [| ? ? NI ND']; subst.
  cbn [filter lookup]. destruct (k' =? k)%string eqn:E.
  - apply String.eqb_eq in E. subst k'.
    destruct (f (k, v')).
    + cbn [lookup]. rewrite String.eqb_refl. reflexivity.
    + rewrite (IH ND'), (lookup_not_key k rest NI). reflexivity.
  - destruct (f (k', v')).
    + cbn [lookup]. rewrite E. exact (IH ND').
    + exact (IH ND').
Qed.

Ltac distinct_keys :=
  cbn [keys map fst];
  repeat (constructor; [cbn [In]; intuition discriminate|]); constructor.

Ltac absent_after_filter :=
  unfold drop_none; rewrite lookup_filter by distinct_keys; reflexivity.

(** C4 (amended): in every public method, an [Optional] argument that is
    [None] has no entry in the transmitted mapping, except [ids] of
    [mark_notifications_read], which is transmitted as the empty list;
    no such argument is ever transmitted as [None]. *)
Theorem C4_unset_optional_fields c k :
  In (k, PyNone) (optional_fields c) ->
  (lookup k (wire_mapping c) = None \/
   c = mark_notifications_read PyNone /\
   lookup k (wire_mapping c) = Some (PyList [])) /\
  lookup k (wire_mapping c) <> Some PyNone.
Proof.
  intros I.
  assert (G : lookup k (wire_mapping c) = None \/
              c = mark_notifications_read PyNone /\
              lookup k (wire_mapping c) = Some (PyList [])).
  { destruct c; cbn [optional_fields In] in I;
      repeat match type of I with
             | _ \/ _ => destruct I as [I | I]
             | False => contradiction
             | (_, _) = (_, _) => injection I as <- ->
             end;
      unfold wire_mapping; cbn [prepare truthy];
      repeat match goal with
             | |- context [truthy ?a] => destruct (truthy a)
             end;
      cbn [andb negb];
      try match goal with
          | |- context [format_int ?n] => destruct (format_int n)
          end;
      cbn [bind_result p_kwargs];
      first [ left; absent_after_filter
            | left; reflexivity
            | right; split; reflexivity ]. }
  split; [exact G|].
  destruct G as [-> | [_ ->]]; discriminate.
Qed.

(** C9 (amended): [force_refresh] is always transmitted, whatever its
    value ([False] included), by [get_ai_insights] in the query parameters
    (for every identifier that the interpreter converts) and by
    [perform_deep_analysis] in the body; [is_active] of
    [save_export_settings], the only other boolean of the surface, is
    transmitted unless it is [None] (so [False] is transmitted too). *)
Theorem C9_boolean_fields :
  (forall trend_id force_refresh,
     (digits trend_id <= int_max_str_digits)%nat ->
     wire_mapping (get_ai_insights trend_id force_refresh) =
     [ ("force_refresh", force_refresh) ]) /\
  (forall query force_refresh,
     lookup "force_refresh" (wire_mapping (perform_deep_analysis query force_refresh)) =
     Some force_refresh) /\
  (forall destination config schedule schedule_time is_active config_id,
     lookup "is_active"
       (wire_mapping (save_export_settings destination config schedule
                        schedule_time is_active config_id)) =
     if is_None is_active then None else Some is_active).
Proof.
  split; [| split; [reflexivity |]].
  - intros trend_id force_refresh D. unfold wire_mapping. cbn [prepare].
    rewrite (format_int_ok _ D). reflexivity.
  - intros. unfold wire_mapping. cbn [prepare p_kwargs]. unfold drop_none.
    rewrite lookup_filter by distinct_keys.
    cbn. destruct is_active; reflexivity.
Qed.

(** ** The code at particular inputs *)

(** C1, as stated, fails on a 401 response: the error raised carries no
    status code. *)
Lemma C1_counterexample :
  ~ raises_with
      (fst (_request (always (Responded unauthorized_plain)) sample_client
              "GET" "/api/status" no_kwargs []))
      authentication 401 (PyStr "Unauthorized").
Proof.
  intros [e [H [_ [S _]]]]. vm_compute in H. injection H as <-. discriminate S.
Qed.

(** C2: an error response whose body decodes to a JSON array makes
    [_request] raise [AttributeError], which is no kind of the
    taxonomy. *)
Theorem C2_error_outside_taxonomy :
  fst (_request (always (Responded server_error_array)) sample_client
         "GET" "/api/status" no_kwargs []) =
    Raise (AttributeError "'list' object has no attribute 'get'") /\
  kind_of (AttributeError "'list' object has no attribute 'get'") = None.
Proof. split; reflexivity. Qed.

(** C3: a 200 response whose body is no JSON makes [_request] raise the
    transport error, although the transport handed back a response. *)
Theorem C3_parse_failure_as_transport_error :
  always (Responded ok_html) []
    (request_for sample_client "GET" "/api/status" no_kwargs) =
    Responded ok_html /\
  fst (_request (always (Responded ok_html)) sample_client
         "GET" "/api/status" no_kwargs []) =
    Raise (TrendsAGIError
             ("Network error communicating with API: " ++ expecting_value)) /\
  kind_of (TrendsAGIError
             ("Network error communicating with API: " ++ expecting_value)) =
    Some transport_error.
Proof. repeat split. Qed.

(** C4, as stated, fails on [mark_notifications_read()]: the unset [ids]
    has an entry in the body. *)
Lemma C4_counterexample :
  ~ omits_unset optional_fields (mark_notifications_read PyNone).
Proof.
  intros H. specialize (H "ids" (or_introl eq_refl)). discriminate H.
Qed.

(** C7, as stated, fails when [action] is the empty string and [feedback]
    is [None]: one of the two is set, and no request is dispatched. *)
Lemma C7_counterexample :
  xorb (is_set (PyStr "")) (is_set PyNone) = true /\
  ~ dispatched
      (invoke (always (Responded ok_object)) accept_any sample_client
         (perform_recommendation_action 7 (PyStr "") PyNone) [])
      [].
Proof.
  split; [reflexivity|].
  intros [req H]. vm_compute in H. discriminate H.
Qed.

(** C9, as stated, fails on [perform_deep_analysis]: its [force_refresh]
    is transmitted even when it is [None]. *)
Lemma C9_counterexample :
  ~ omits_unset boolean_fields (perform_deep_analysis (PyStr "chips") PyNone).
Proof.
  intros H. specialize (H "force_refresh" (or_introl eq_refl)). discriminate H.
Qed.

(** ** Instances *)

Lemma C1_status_classification_witness :
  fst (_request (always (Responded not_found_plain)) sample_client
         "GET" "/api/trends/42" no_kwargs []) =
  Raise (NotFoundError 404 (PyStr "Not Found")).
Proof.
  refine (proj1 (proj2
            (C1_status_classification (always (Responded not_found_plain))
               sample_client "GET" "/api/trends/42" no_kwargs []
               not_found_plain (PyStr "Not Found") eq_refl _ eq_refl))
            eq_refl).
  cbn. lia.
Defined.

Lemma C4_unset_optional_fields_witness :
  In ("search", PyNone) (optional_fields get_trends_defaults) /\
  lookup "search" (wire_mapping get_trends_defaults) = None.
Proof.
  assert (I : In ("search", PyNone) (optional_fields get_trends_defaults))
    by (left; reflexivity).
  split; [exact I|].
  destruct (proj1 (C4_unset_optional_fields get_trends_defaults "search" I))
    as [E | [E _]]; [exact E | discriminate E].
Defined.

Lemma C5_success_paths_witness :
  _request (always (Responded no_content)) sample_client
    "DELETE" "/api/user/topic-interests/3" no_kwargs [] =
    (Return PyNone,
     [ NetworkCall (request_for sample_client "DELETE"
                      "/api/user/topic-interests/3" no_kwargs) ]) /\
  _request (always (Responded ok_object)) sample_client
    "GET" "/api/status" no_kwargs [] =
    (Return (PyDict []),
     [ NetworkCall (request_for sample_client "GET" "/api/status" no_kwargs);
       JsonDecode ok_object ]).
Proof.
  split.
  - apply (proj1 (C5_success_paths (always (Responded no_content)) sample_client
                    "DELETE" "/api/user/topic-interests/3" no_kwargs [])
             no_content); reflexivity.
  - apply (proj1 (proj2 (C5_success_paths (always (Responded ok_object))
                           sample_client "GET" "/api/status" no_kwargs []))
             ok_object (PyDict [])); [reflexivity | cbn; lia | cbn; lia | reflexivity].
Defined.

Lemma C6_undecodable_body_detail_witness :
  exists e,
    fst (_request (always (Responded not_found_plain)) sample_client
           "GET" "/api/trends/42" no_kwargs []) = Raise e /\
    carried_detail e = Some (PyStr "Not Found").
Proof.
  apply (C6_undecodable_body_detail (always (Responded not_found_plain))
           sample_client "GET" "/api/trends/42" no_kwargs [] not_found_plain
           expecting_value);
    [reflexivity | cbn; lia | reflexivity].
Defined.

Lemma C7_recommendation_action_validation_witness :
  network_calls
    (snd (invoke (always (Responded ok_object)) accept_any sample_client
            (perform_recommendation_action 7 (PyStr "dismiss") PyNone) [])) =
  [ request_for sample_client "POST"
      "/api/intelligence/recommendations/7/action"
      (kw_json (PyDict [ ("action", PyStr "dismiss") ])) ].
Proof.
  apply (proj2 (proj2
           (C7_recommendation_action_validation (always (Responded ok_object))
              accept_any sample_client 7 (PyStr "dismiss") PyNone []))).
  - cbn. discriminate.
  - apply Nat.leb_le. reflexivity.
Defined.

Lemma C8_constructor_witness :
  exists client,
    __init__ "k-123" "https://api.trendsagi.com/" [] = (Return client, []).
Proof.
  apply (proj2 (C8_constructor "https://api.trendsagi.com/" []) "k-123").
  discriminate.
Defined.

Lemma C9_boolean_fields_witness :
  wire_mapping (get_ai_insights 3 (PyBool false)) =
  [ ("force_refresh", PyBool false) ].
Proof.
  apply (proj1 C9_boolean_fields 3 (PyBool false)).
  apply Nat.leb_le. reflexivity.
Defined.

Lemma C10_object_without_detail_witness :
  exists e,
    fst (_request (always (Responded forbidden_object)) sample_client
           "GET" "/api/plans" no_kwargs []) = Raise e /\
    carried_detail e = Some (PyStr "{}").
Proof.
  apply (C10_object_without_detail (always (Responded forbidden_object))
           sample_client "GET" "/api/plans" no_kwargs [] forbidden_object []);
    [reflexivity | cbn; lia | reflexivity | reflexivity].
Defined.

(** * Further properties *)

(** ** The constructor *)

Lemma rstrip_slash_no_trailing s : ends_with_slash (rstrip_slash s) = false.
Proof.
  induction s as [| c rest IH]; [reflexivity|].
  cbn [rstrip_slash]. destruct (rstrip_slash rest) as [| c' kept] eqn:E.
  - destruct (c =? "/")%char eqn:C; [reflexivity|]. cbn. exact C.
  - exact IH.
Qed.

Lemma rstrip_slash_decompose s :
  exists n, s = rstrip_slash s ++ slashes n.
Proof.
  induction s as [| c rest [n IH]]; [exists O; reflexivity|].
  cbn [rstrip_slash]. destruct (rstrip_slash rest) as [| c' kept] eqn:E.
  - destruct (c =? "/")%char eqn:C.
    + apply Ascii.eqb_eq in C. subst c. exists (S n).
      cbn. rewrite IH at 1. reflexivity.
    + exists n. cbn. rewrite IH at 1. reflexivity.
  - exists n. cbn [append]. rewrite IH at 1. reflexivity.
Qed.

(** X1: the base address a constructed client stores is the given one
    with its trailing slashes, and nothing else, removed. *)
Theorem init_base_url_normalised api_key base tr client tr' :
  __init__ api_key base tr = (Return client, tr') ->
  ends_with_slash (base_url client) = false /\
  exists n, base = base_url client ++ slashes n.
Proof.
  unfold __init__. destruct (api_key =? "")%string; [discriminate|].
  intros H. injection H as <- _. cbn [base_url].
  split; [apply rstrip_slash_no_trailing | apply rstrip_slash_decompose].
Qed.

Lemma init_base_url_normalised_witness :
  ends_with_slash "http://localhost:8000" = false /\
  exists n, "http://localhost:8000//" = "http://localhost:8000" ++ slashes n.
Proof.
  exact (init_base_url_normalised "k-123" "http://localhost:8000//" []
           (mkClient "http://localhost:8000"
              [ ("X-API-Key", "k-123"); ("Content-Type", "application/json");
                ("Accept", "application/json") ])
           [] eq_refl).
Defined.

(** X2: every request that a method of a constructed client hands to the
    transport goes to the stripped base address followed by the endpoint
    of the method and carries the key given to the constructor in
    [X-API-Key], beside the two JSON content headers. *)
Theorem constructed_client_requests
    transport model_validate api_key base tr0 client tr1 c p tr :
  __init__ api_key base tr0 = (Return client, tr1) ->
  prepare c = Return p ->
  network_calls (snd (invoke transport model_validate client c tr)) =
  (network_calls tr ++
   [ mkRequest (p_method p) (rstrip_slash base ++ p_endpoint p)
       [ ("X-API-Key", api_key); ("Content-Type", "application/json");
         ("Accept", "application/json") ]
       (p_kwargs p) ])%list.
Proof.
  unfold __init__. destruct (api_key =? "")%string; [discriminate|].
  intros H P. injection H as <- _.
  rewrite (invoke_trace _ _ _ _ _ _ P), dispatch_network_calls. reflexivity.
Qed.

Lemma constructed_client_requests_witness :
  network_calls
    (snd (invoke (always (Responded no_content)) accept_any sample_client
            (delete_topic_interest 3) [])) =
  [ mkRequest "DELETE" "https://api.trendsagi.com/api/user/topic-interests/3"
      [ ("X-API-Key", "k-123"); ("Content-Type", "application/json");
        ("Accept", "application/json") ]
      no_kwargs ].
Proof.
  exact (constructed_client_requests (always (Responded no_content)) accept_any
           "k-123" "https://api.trendsagi.com/" [] sample_client []
           (delete_topic_interest 3)
           (mkPrepared "DELETE" "/api/user/topic-interests/3" no_kwargs discard)
           [] eq_refl eq_refl).
Defined.

(** ** What every method does *)

Ltac accepted H :=
  cbn [prepare] in H |- *;
  repeat match type of H with
         | context [truthy ?a] => destruct (truthy a)
         end;
  cbn [andb negb] in H |- *; try discriminate H;
  try match type of H with
      | context [format_int ?n] =>
          let F := fresh "F" in
          destruct (format_int n) eqn:F;
          [apply format_int_return in F as [-> F] |]
      end;
  cbn [bind_result] in H |- *; try discriminate H.

Ltac settle_goal :=
  cbn [prepare];
  repeat match goal with
         | |- context [truthy ?a] => destruct (truthy a)
         end;
  cbn [andb negb];
  try match goal with
      | |- context [format_int ?n] => destruct (format_int n)
      end;
  cbn [bind_result p_kwargs].

Lemma format_int_too_long n :
  (int_max_str_digits < digits n)%nat ->
  format_int n = Raise (ValueError int_limit_message).
Proof.
  intros H. unfold format_int. apply Nat.ltb_lt in H. rewrite H. reflexivity.
Qed.

Lemma prepare_raise_inv c e :
  prepare c = Raise e ->
  (exists rid action feedback,
     c = perform_recommendation_action rid action feedback /\
     (truthy action = true /\ truthy feedback = true /\
      e = ValueError
            "Only one of 'action' or 'feedback' can be provided at a time." \/
      truthy action = false /\ truthy feedback = false /\
      e = ValueError "Either 'action' or 'feedback' must be provided.")) \/
  (exists id,
     path_parameter c = Some id /\
     (int_max_str_digits < digits id)%nat /\
     e = ValueError int_limit_message /\
     (forall rid action feedback,
        c = perform_recommendation_action rid action feedback ->
        truthy action <> truthy feedback)).
Proof.
  destruct c; cbn [prepare]; try discriminate;
    try (match goal with
         | |- context [format_int ?n] => destruct (format_int n) eqn:F
         end;
         cbn [bind_result]; [discriminate|];
         intros H; injection H as <-;
         apply format_int_raise in F as [-> L];
         right; eexists; repeat split; [exact L | discriminate]).
  destruct (truthy action) eqn:A, (truthy feedback) eqn:B; cbn [andb negb];
    try (intros H; injection H as <-; left;
         exists recommendation_id, action, feedback;
         split; [reflexivity | tauto]);
    (destruct (format_int recommendation_id) eqn:F;
     cbn [bind_result]; [discriminate|];
     intros H; injection H as <-;
     apply format_int_raise in F as [-> L];
     right; exists recommendation_id; repeat split; [exact L|];
     intros rid a f Q; injection Q as _ <- <-; rewrite A, B; discriminate).
Qed.

(** X3: a call of a public method hands exactly one request to the
    transport, the one the method prepared, whatever the answer is; the
    only calls that hand it none fail with [ValueError] before the
    dispatch: [perform_recommendation_action] with [action] and
    [feedback] both truthy or both falsy, and a call whose identifier has
    more digits than the interpreter converts. *)
Theorem one_network_call_per_method transport model_validate self c tr :
  (exists p,
     prepare c = Return p /\
     network_calls (snd (invoke transport model_validate self c tr)) =
     (network_calls tr ++
      [ request_for self (p_method p) (p_endpoint p) (p_kwargs p) ])%list) \/
  (exists msg,
     invoke transport model_validate self c tr = (Raise (ValueError msg), tr) /\
     ((exists rid action feedback,
         c = perform_recommendation_action rid action feedback /\
         truthy action = truthy feedback) \/
      (exists id,
         path_parameter c = Some id /\
         (int_max_str_digits < digits id)%nat))).
Proof.
  destruct (prepare c) as [p | e] eqn:P.
  - left. exists p. split; [reflexivity|].
    rewrite (invoke_trace _ _ _ _ _ _ P). apply dispatch_network_calls.
  - right. pose proof (invoke_rejected transport model_validate self c e tr P) as R.
    destruct (prepare_raise_inv c e P)
      as [[rid [a [f [C D]]]] | [id [I [L [E _]]]]].
    + destruct D as [[A [F E]] | [A [F E]]]; subst e;
        (eexists; split; [exact R|]); left; exists rid, a, f;
        (split; [exact C | rewrite A, F; reflexivity]).
    + subst e. eexists. split; [exact R|]. right. exists id. auto.
Qed.

(** X4: a method rejects a call before dispatch in exactly three cases,
    each with a [ValueError] of its own message:
    [perform_recommendation_action] with [action] and [feedback] both
    truthy, the same with both falsy, and otherwise a call whose
    identifier has more digits than the interpreter converts when the
    path is formatted. *)
Theorem local_rejection_characterised c e :
  prepare c = Raise e <->
  (exists rid action feedback,
     c = perform_recommendation_action rid action feedback /\
     (truthy action = true /\ truthy feedback = true /\
      e = ValueError
            "Only one of 'action' or 'feedback' can be provided at a time." \/
      truthy action = false /\ truthy feedback = false /\
      e = ValueError "Either 'action' or 'feedback' must be provided.")) \/
  (exists id,
     path_parameter c = Some id /\
     (int_max_str_digits < digits id)%nat /\
     e = ValueError int_limit_message /\
     (forall rid action feedback,
        c = perform_recommendation_action rid action feedback ->
        truthy action <> truthy feedback)).
Proof.
  split; [apply prepare_raise_inv|].
  intros [[rid [a [f [-> D]]]] | [id [I [L [-> V]]]]].
  - cbn [prepare].
    destruct D as [[A [F E]] | [A [F E]]]; rewrite A, F, E; reflexivity.
  - destruct c; cbn [path_parameter] in I; try discriminate I;
      injection I as ->; cbn [prepare];
      rewrite ?(format_int_too_long _ L); try reflexivity.
    specialize (V _ _ _ eq_refl).
    destruct (truthy action), (truthy feedback);
      try (exfalso; apply V; reflexivity); reflexivity.
Qed.

Lemma local_rejection_characterised_witness :
  prepare (perform_recommendation_action 7 PyNone (PyObject "tuple" false)) =
  Raise (ValueError "Either 'action' or 'feedback' must be provided.").
Proof.
  apply (proj2 (local_rejection_characterised
                  (perform_recommendation_action 7 PyNone
                     (PyObject "tuple" false)) _)).
  left. exists 7, PyNone, (PyObject "tuple" false). split; [reflexivity|].
  right. repeat split.
Defined.

(** X5: every endpoint lies under ["/api/"]; a GET carries query
    parameters or nothing, never a body; a DELETE carries nothing and its
    result is discarded; a POST or PUT carries a JSON body or nothing,
    never query parameters; and no other HTTP method is used. *)
Theorem request_shape_by_method c p :
  prepare c = Return p ->
  String.prefix "/api/" (p_endpoint p) = true /\
  (p_method p = "GET" /\
   (p_kwargs p = no_kwargs \/ exists d, p_kwargs p = kw_params d) \/
   p_method p = "DELETE" /\ p_kwargs p = no_kwargs /\ p_post p = discard \/
   (p_method p = "POST" \/ p_method p = "PUT") /\
   (p_kwargs p = no_kwargs \/ exists v, p_kwargs p = kw_json v)).
Proof.
  intros H.
  destruct c; accepted H;
    injection H as <-; (split; [reflexivity|]);
    cbn [p_method p_kwargs p_post]; eauto 8.
Qed.

Lemma request_shape_by_method_witness :
  String.prefix "/api/" "/api/intelligence/market/x-users/12" = true /\
  ("PUT" = "GET" /\
   (kw_json (PyDict [("notes", PyStr "vip")]) = no_kwargs \/
    exists d, kw_json (PyDict [("notes", PyStr "vip")]) = kw_params d) \/
   "PUT" = "DELETE" /\
   kw_json (PyDict [("notes", PyStr "vip")]) = no_kwargs /\
   validate "MarketEntity" = discard \/
   ("PUT" = "POST" \/ "PUT" = "PUT") /\
   (kw_json (PyDict [("notes", PyStr "vip")]) = no_kwargs \/
    exists v, kw_json (PyDict [("notes", PyStr "vip")]) = kw_json v)).
Proof.
  exact (request_shape_by_method
           (update_tracked_x_user 12 (PyDict [("notes", PyStr "vip")]))
           (mkPrepared "PUT" "/api/intelligence/market/x-users/12"
              (kw_json (PyDict [("notes", PyStr "vip")]))
              (validate "MarketEntity"))
           eq_refl).
Defined.

(** ** What reaches the wire *)

Lemma in_keys_filter (f : string * pyval -> bool) k (d : dict) :
  In k (keys (filter f d)) -> exists v, In (k, v) d /\ f (k, v) = true.
Proof.
  unfold keys. intros I. apply in_map_iff in I as [[k' v] [E I]].
  cbn in E. subst k'. exists v. apply filter_In in I. exact I.
Qed.

Ltac split_in H :=
  cbn [In] in H;
  repeat match type of H with
         | _ \/ _ => destruct H as [H | H]
         | False => contradiction
         end.

(** X6: an entry whose value is [None] can reach the wire only through a
    method that builds its mapping without the [is not None] condition or
    forwards a mapping of the caller; every other method transmits no
    [None] at the top level of its parameters or body. *)
Theorem explicit_none_only_unfiltered c k :
  In (k, PyNone) (wire_mapping c) -> unfiltered c = true.
Proof.
  unfold wire_mapping.
  destruct c; settle_goal; cbn [unfiltered]; try reflexivity;
    unfold drop_none; intros I; try contradiction;
    try (apply filter_In in I as [_ I]; cbn in I; discriminate I).
  cbn [In] in I. destruct I as [I | []].
  injection I as _ I. destruct ids; discriminate I.
Qed.

Lemma explicit_none_only_unfiltered_witness :
  unfiltered (perform_deep_analysis (PyStr "chips") PyNone) = true.
Proof.
  apply (explicit_none_only_unfiltered
           (perform_deep_analysis (PyStr "chips") PyNone) "force_refresh").
  cbn. right. left. reflexivity.
Defined.

(** X7: in a call that passes the local validation, every argument that
    is not [None] is transmitted with its value unchanged under the key
    the method gives it. *)
Theorem set_arguments_transmitted c p k v :
  prepare c = Return p ->
  In (k, v) (field_arguments c) ->
  v <> PyNone ->
  lookup k (wire_mapping c) = Some v.
Proof.
  intros P I N.
  assert (F : is_None v = false) by (destruct v; try reflexivity; contradiction).
  unfold wire_mapping.
  destruct c; cbn [field_arguments] in I; split_in I; accepted P;
    clear P; injection I as <- <-; cbn [p_kwargs]; unfold drop_none;
    try (rewrite lookup_filter by distinct_keys);
    cbn; rewrite ?F; reflexivity.
Qed.

Lemma set_arguments_transmitted_witness :
  lookup "limit"
    (wire_mapping
       (get_crisis_events (PyInt 5) (PyInt 0) (PyStr "active") PyNone PyNone
          (PyStr "24h") PyNone PyNone)) = Some (PyInt 5).
Proof.
  apply (set_arguments_transmitted _
           (mkPrepared "GET" "/api/intelligence/crisis-events"
              (kw_params [ ("limit", PyInt 5); ("offset", PyInt 0);
                           ("status", PyStr "active");
                           ("timeRange", PyStr "24h") ])
              (validate "CrisisEventListResponse"))).
  - reflexivity.
  - left. reflexivity.
  - discriminate.
Defined.

(** X8: a method that assembles its mapping from its arguments transmits
    no key besides theirs; in particular [get_trends], which collects
    [locals()], never transmits ['self']. *)
Theorem only_arguments_transmitted c k :
  forwards_body c = false ->
  In k (keys (wire_mapping c)) ->
  In k (keys (field_arguments c)).
Proof.
  unfold wire_mapping.
  destruct c; cbn [forwards_body field_arguments];
    try discriminate; intros _; settle_goal;
    unfold drop_none; intros I; try contradiction;
    try (apply in_keys_filter in I as [v [I T]]; split_in I;
         injection I as <- <-; cbn in T |- *;
         try discriminate T; tauto);
    try exact I.
Qed.

Lemma only_arguments_transmitted_witness :
  In "period" (keys (field_arguments get_trends_defaults)).
Proof.
  apply (only_arguments_transmitted get_trends_defaults "period").
  - reflexivity.
  - cbn. tauto.
Defined.

(** ** Failures as the caller of a method sees them *)

Lemma invoke_raise transport model_validate self c p tr e tr' :
  prepare c = Return p ->
  _request transport self (p_method p) (p_endpoint p) (p_kwargs p) tr =
    (Raise e, tr') ->
  invoke transport model_validate self c tr = (Raise e, tr').
Proof. intros P R. unfold invoke, bind, lift. rewrite P, R. reflexivity. Qed.

Lemma invoke_return transport model_validate self c p tr d tr' :
  prepare c = Return p ->
  _request transport self (p_method p) (p_endpoint p) (p_kwargs p) tr =
    (Return d, tr') ->
  invoke transport model_validate self c tr =
    (finish model_validate (p_post p) d, tr').
Proof. intros P R. unfold invoke, bind, lift. rewrite P, R. reflexivity. Qed.

(** X9: when an error response decodes to a JSON object that has a
    ['detail'] entry, the error carries that entry as it is, whatever
    kind of value it is. *)
Theorem error_detail_from_body transport self method endpoint kw tr r d x :
  transport tr (request_for self method endpoint kw) = Responded r ->
  ~ (200 <= status_code r < 300) ->
  json_outcome r = inr (PyDict d) ->
  lookup "detail" d = Some x ->
  exists e,
    fst (_request transport self method endpoint kw tr) = Raise e /\
    carried_detail e = Some x.
Proof.
  intros H I J L. exists (classified (status_code r) x).
  rewrite (dispatch_error_object _ _ _ _ _ _ r d H I J), L.
  split; [reflexivity | apply carried_detail_classified].
Qed.

Lemma error_detail_from_body_witness :
  exists e,
    fst (_request (always (Responded unprocessable_detail)) sample_client
           "GET" "/api/trends" no_kwargs []) = Raise e /\
    carried_detail e = Some (PyList [PyStr "limit"]).
Proof.
  apply (error_detail_from_body _ sample_client "GET" "/api/trends" no_kwargs []
           unprocessable_detail [ ("detail", PyList [PyStr "limit"]) ]);
    [reflexivity | cbn; lia | reflexivity | reflexivity].
Defined.

(** X10: a method hands the classified error of the dispatch to its
    caller unchanged: on an error response whose body is no JSON or a JSON
    object, the call raises the error that the status selects, after one
    request and one decoding, and nothing is deserialised. *)
Theorem method_error_classified
    transport model_validate self c p tr r detail :
  prepare c = Return p ->
  transport tr (request_for self (p_method p) (p_endpoint p) (p_kwargs p)) =
    Responded r ->
  ~ (200 <= status_code r < 300) ->
  extracted_detail r = Some detail ->
  invoke transport model_validate self c tr =
  (Raise (classified (status_code r) detail),
   (tr ++ [ NetworkCall
              (request_for self (p_method p) (p_endpoint p) (p_kwargs p));
            JsonDecode r ])%list).
Proof.
  intros P H I D. apply (invoke_raise _ _ _ _ p _ _ _ P).
  unfold extracted_detail in D.
  destruct (json_outcome r) as [msg | v] eqn:J.
  - injection D as <-. exact (dispatch_error_undecodable _ _ _ _ _ _ r msg H I J).
  - destruct v; try discriminate. injection D as <-.
    exact (dispatch_error_object _ _ _ _ _ _ r d H I J).
Qed.

Lemma method_error_classified_witness :
  invoke (always (Responded not_found_plain)) reject_all sample_client
    (get_trend_details 42) [] =
  (Raise (NotFoundError 404 (PyStr "Not Found")),
   [ NetworkCall (request_for sample_client "GET" "/api/trends/42" no_kwargs);
     JsonDecode not_found_plain ]).
Proof.
  apply (method_error_classified (always (Responded not_found_plain)) reject_all
           sample_client (get_trend_details 42)
           (mkPrepared "GET" "/api/trends/42" no_kwargs (validate "TrendDetail"))
           [] not_found_plain (PyStr "Not Found"));
    [reflexivity | reflexivity | cbn; lia | reflexivity].
Defined.

(** X11: when an error response decodes to a JSON value that is no
    object, every method raises [AttributeError] naming the type of the
    value, whatever the status code is. *)
Theorem method_error_body_not_object
    transport model_validate self c p tr r v :
  prepare c = Return p ->
  transport tr (request_for self (p_method p) (p_endpoint p) (p_kwargs p)) =
    Responded r ->
  ~ (200 <= status_code r < 300) ->
  json_outcome r = inr v ->
  (forall d, v <> PyDict d) ->
  invoke transport model_validate self c tr =
  (Raise (AttributeError
            ("'" ++ type_name v ++ "' object has no attribute 'get'")),
   (tr ++ [ NetworkCall
              (request_for self (p_method p) (p_endpoint p) (p_kwargs p));
            JsonDecode r ])%list).
Proof.
  intros P H I J N. apply (invoke_raise _ _ _ _ p _ _ _ P).
  exact (dispatch_error_not_object _ _ _ _ _ _ r v H I J N).
Qed.

Lemma method_error_body_not_object_witness :
  invoke (always (Responded (mkResponse 401 "null" (inr PyNone)))) accept_any
    sample_client get_dashboard_stats [] =
  (Raise (AttributeError "'NoneType' object has no attribute 'get'"),
   [ NetworkCall
       (request_for sample_client "GET" "/api/user/dashboard/stats" no_kwargs);
     JsonDecode (mkResponse 401 "null" (inr PyNone)) ]).
Proof.
  apply (method_error_body_not_object _ accept_any sample_client
           get_dashboard_stats
           (mkPrepared "GET" "/api/user/dashboard/stats" no_kwargs
              (validate "DashboardStats"))
           [] (mkResponse 401 "null" (inr PyNone)) PyNone);
    [reflexivity | reflexivity | cbn; lia | reflexivity | discriminate].
Defined.

(** X12: when a response with a status in [200, 300) other than 204 has
    a body that is no JSON, every method raises [TrendsAGIError] with the
    network-error prefix before the decoder's message; a deletion answered
    200 with an empty body is reported this way. *)
Theorem method_success_body_undecodable
    transport model_validate self c p tr r msg :
  prepare c = Return p ->
  transport tr (request_for self (p_method p) (p_endpoint p) (p_kwargs p)) =
    Responded r ->
  200 <= status_code r < 300 -> status_code r <> 204 ->
  json_outcome r = inl msg ->
  invoke transport model_validate self c tr =
  (Raise (TrendsAGIError ("Network error communicating with API: " ++ msg)),
   (tr ++ [ NetworkCall
              (request_for self (p_method p) (p_endpoint p) (p_kwargs p));
            JsonDecode r ])%list).
Proof.
  intros P H I N J. apply (invoke_raise _ _ _ _ p _ _ _ P).
  exact (dispatch_2xx_undecodable _ _ _ _ _ _ r msg H I N J).
Qed.

Lemma method_success_body_undecodable_witness :
  invoke (always (Responded (mkResponse 200 "" (inl expecting_value))))
    accept_any sample_client (delete_export_setting 9) [] =
  (Raise (TrendsAGIError
            ("Network error communicating with API: " ++ expecting_value)),
   [ NetworkCall
       (request_for sample_client "DELETE" "/api/user/export/settings/9"
          no_kwargs);
     JsonDecode (mkResponse 200 "" (inl expecting_value)) ]).
Proof.
  apply (method_success_body_undecodable _ accept_any sample_client
           (delete_export_setting 9)
           (mkPrepared "DELETE" "/api/user/export/settings/9" no_kwargs discard)
           [] (mkResponse 200 "" (inl expecting_value)) expecting_value);
    [reflexivity | reflexivity | cbn; lia | cbn; lia | reflexivity].
Defined.

(** X13: when the transport fails with any exception of [requests], every
    method raises [TrendsAGIError] whose message is the network-error
    prefix followed by the message of the cause; the class of the cause is
    lost, and nothing is decoded or deserialised. *)
Theorem method_transport_failure
    transport model_validate self c p tr cls msg :
  prepare c = Return p ->
  transport tr (request_for self (p_method p) (p_endpoint p) (p_kwargs p)) =
    Failed cls msg ->
  invoke transport model_validate self c tr =
  (Raise (TrendsAGIError ("Network error communicating with API: " ++ msg)),
   (tr ++ [ NetworkCall
              (request_for self (p_method p) (p_endpoint p) (p_kwargs p)) ])%list).
Proof.
  intros P H. apply (invoke_raise _ _ _ _ p _ _ _ P).
  exact (dispatch_transport_failure _ _ _ _ _ _ cls msg H).
Qed.

Lemma method_transport_failure_witness :
  invoke (always (Failed Timeout "Read timed out.")) accept_any sample_client
    get_api_status [] =
  (Raise (TrendsAGIError "Network error communicating with API: Read timed out."),
   [ NetworkCall (request_for sample_client "GET" "/api/status" no_kwargs) ]).
Proof.
  apply (method_transport_failure _ accept_any sample_client get_api_status
           (mkPrepared "GET" "/api/status" no_kwargs (validate "StatusPage"))
           [] Timeout "Read timed out."); reflexivity.
Defined.

(** ** Decoding and deserialisation *)

Lemma json_decodes_app t1 t2 :
  json_decodes (t1 ++ t2)%list = (json_decodes t1 + json_decodes t2)%nat.
Proof.
  induction t1 as [| ev t1 IH]; [reflexivity|].
  destruct ev; cbn; rewrite IH; reflexivity.
Qed.

(** X14: a dispatch decodes the body of the response exactly once, on
    success and on error alike, except that it never decodes the body of a
    204 response and decodes nothing when the transport fails. *)
Theorem body_decoded_once transport self method endpoint kw tr :
  json_decodes (snd (_request transport self method endpoint kw tr)) =
  (json_decodes tr +
   match transport tr (request_for self method endpoint kw) with
   | Failed _ _ => 0
   | Responded r => if (status_code r =? 204)%Z then 0 else 1
   end)%nat.
Proof.
  destruct (transport tr (request_for self method endpoint kw))
    as [cls msg | r] eqn:H.
  - rewrite (dispatch_transport_failure _ _ _ _ _ _ cls msg H).
    cbn [snd]. rewrite json_decodes_app. reflexivity.
  - destruct (Z.eq_dec (status_code r) 204) as [E | N].
    + rewrite (dispatch_204 _ _ _ _ _ _ r H E), E.
      cbn [snd]. rewrite json_decodes_app. reflexivity.
    + apply Z.eqb_neq in N.
      unfold _request, try_except, bind, session_request, request_for in *.
      rewrite H, N. unfold response_json, py_get, bind, emit, ret, raise.
      destruct ((200 <=? status_code r) && (status_code r <? 300));
        destruct (json_outcome r) as [msg | v]; cbn;
        try (destruct v; cbn);
        repeat match goal with
               | |- context [(?s =? ?n)%Z] => destruct (s =? n)%Z
               end;
        cbn; rewrite !json_decodes_app; cbn; lia.
Qed.

Lemma deletion_prepared c p :
  is_deletion c = true ->
  prepare c = Return p ->
  p_method p = "DELETE" /\ p_kwargs p = no_kwargs /\ p_post p = discard.
Proof.
  intros D P. destruct c; try discriminate D; accepted P;
    injection P as <-; repeat split.
Qed.

(** X15: a [delete_*] method returns [None] on every response with a
    status in [200, 300) that is 204 or has a JSON body, whatever that
    body holds. *)
Theorem deletion_returns_none transport model_validate self c p tr r :
  is_deletion c = true ->
  prepare c = Return p ->
  transport tr (request_for self (p_method p) (p_endpoint p) (p_kwargs p)) =
    Responded r ->
  200 <= status_code r < 300 ->
  status_code r = 204 \/ (exists v, json_outcome r = inr v) ->
  fst (invoke transport model_validate self c tr) = Return PyNone.
Proof.
  intros D P H I B.
  destruct (deletion_prepared c p D P) as [_ [_ Q]].
  destruct (Z.eq_dec (status_code r) 204) as [E | N].
  - rewrite (invoke_return _ _ _ _ p _ _ _ P (dispatch_204 _ _ _ _ _ _ r H E)).
    rewrite Q. reflexivity.
  - destruct B as [E | [v J]]; [contradiction|].
    rewrite (invoke_return _ _ _ _ p _ _ _ P
               (dispatch_2xx_json _ _ _ _ _ _ r v H I N J)).
    rewrite Q. reflexivity.
Qed.

Lemma deletion_returns_none_witness :
  fst (invoke (always (Responded ok_object)) reject_all sample_client
         (delete_tracked_x_user 4) []) = Return PyNone.
Proof.
  apply (deletion_returns_none _ reject_all sample_client
           (delete_tracked_x_user 4)
           (mkPrepared "DELETE" "/api/intelligence/market/x-users/4" no_kwargs
              discard)
           [] ok_object);
    [reflexivity | reflexivity | reflexivity | cbn; lia |].
  right. exists (PyDict []). reflexivity.
Defined.

(** X16: for an identifier that the interpreter converts,
    [get_ai_insights] returns [None] without deserialising when the
    response is 204 or its body decodes to a falsy value (an empty object
    or array, [null], [false], 0, the empty string), and otherwise returns
    what the deserialiser makes of the decoded body. *)
Theorem ai_insights_optional
    transport model_validate self trend_id force_refresh tr r :
  (digits trend_id <= int_max_str_digits)%nat ->
  transport tr
    (request_for self "GET" ("/api/trends/" ++ str_int trend_id ++ "/ai-insights")
       (kw_params [ ("force_refresh", force_refresh) ])) = Responded r ->
  200 <= status_code r < 300 ->
  (status_code r = 204 ->
   fst (invoke transport model_validate self
          (get_ai_insights trend_id force_refresh) tr) = Return PyNone) /\
  (forall v, status_code r <> 204 -> json_outcome r = inr v ->
   fst (invoke transport model_validate self
          (get_ai_insights trend_id force_refresh) tr) =
   if truthy v then model_validate "AIInsight" v else Return PyNone).
Proof.
  intros D H I.
  assert (P : prepare (get_ai_insights trend_id force_refresh) =
              Return (mkPrepared "GET"
                        ("/api/trends/" ++ str_int trend_id ++ "/ai-insights")
                        (kw_params [ ("force_refresh", force_refresh) ])
                        (validate_if_truthy "AIInsight")))
    by (cbn [prepare]; rewrite (format_int_ok _ D); reflexivity).
  split.
  - intros E.
    rewrite (invoke_return _ _ _ _ _ _ _ _ P (dispatch_204 _ _ _ _ _ _ r H E)).
    reflexivity.
  - intros v N J.
    rewrite (invoke_return _ _ _ _ _ _ _ _ P
               (dispatch_2xx_json _ _ _ _ _ _ r v H I N J)).
    reflexivity.
Qed.

Lemma ai_insights_optional_witness :
  fst (invoke (always (Responded ok_object)) reject_all sample_client
         (get_ai_insights 3 (PyBool false)) []) = Return PyNone.
Proof.
  assert (I : 200 <= status_code ok_object < 300) by (cbn; lia).
  assert (D : (digits 3 <= int_max_str_digits)%nat)
    by (apply Nat.leb_le; reflexivity).
  apply (proj2 (ai_insights_optional (always (Responded ok_object)) reject_all
                  sample_client 3 (PyBool false) [] ok_object D eq_refl I)
           (PyDict [])); [cbn; lia | reflexivity].
Defined.

Lemma listing_prepared c model :
  listing_model c = Some model ->
  exists endpoint,
    prepare c = Return (mkPrepared "GET" endpoint no_kwargs (validate_each model)).
Proof.
  destruct c; try discriminate; intros E; injection E as <-;
    eexists; reflexivity.
Qed.

(** X17: a method that returns a list of typed items raises [TypeError]
    on a 204 response: it iterates over the [None] that the dispatch
    returns. *)
Theorem listing_on_no_content transport model_validate self c p model tr r :
  listing_model c = Some model ->
  prepare c = Return p ->
  transport tr (request_for self (p_method p) (p_endpoint p) (p_kwargs p)) =
    Responded r ->
  status_code r = 204 ->
  invoke transport model_validate self c tr =
  (Raise (TypeError "'NoneType' object is not iterable"),
   (tr ++ [ NetworkCall
              (request_for self (p_method p) (p_endpoint p) (p_kwargs p)) ])%list).
Proof.
  intros L P H E.
  destruct (listing_prepared c model L) as [endpoint P'].
  assert (p_post p = validate_each model) as Q
      by (rewrite P in P'; injection P' as ->; reflexivity).
  rewrite (invoke_return _ _ _ _ p _ _ _ P (dispatch_204 _ _ _ _ _ _ r H E)).
  rewrite Q. reflexivity.
Qed.

Lemma listing_on_no_content_witness :
  invoke (always (Responded no_content)) accept_any sample_client
    get_available_plans [] =
  (Raise (TypeError "'NoneType' object is not iterable"),
   [ NetworkCall (request_for sample_client "GET" "/api/plans" no_kwargs) ]).
Proof.
  apply (listing_on_no_content _ accept_any sample_client get_available_plans
           (mkPrepared "GET" "/api/plans" no_kwargs
              (validate_each "SubscriptionPlan"))
           "SubscriptionPlan" [] no_content); reflexivity.
Defined.

Lemma map_result_Forall2 {A B} (f : A -> Result B) l ys :
  map_result f l = Return ys <-> Forall2 (fun x y => f x = Return y) l ys.
Proof.
  revert ys. induction l as [| x rest IH]; intros ys; cbn [map_result].
  - split.
    + intros E. injection E as <-. constructor.
    + intros F. inversion F. reflexivity.
  - split.
    + destruct (f x) as [y | e] eqn:X; [| discriminate].
      destruct (map_result f rest) as [zs | e] eqn:R; [| discriminate].
      intros E. injection E as <-. constructor; [exact X | apply IH; reflexivity].
    + intros F. inversion F as [| ? y ? zs X T]; subst.
      rewrite X. apply IH in T. rewrite T. reflexivity.
Qed.

Lemma map_result_first_failure {A B} (f : A -> Result B) pre x post e :
  (forall a, In a pre -> exists b, f a = Return b) ->
  f x = Raise e ->
  map_result f (pre ++ x :: post)%list = Raise e.
Proof.
  induction pre as [| a pre IH]; intros G X; cbn [app map_result].
  - rewrite X. reflexivity.
  - destruct (G a (or_introl eq_refl)) as [b ->].
    rewrite IH; [reflexivity | | exact X].
    intros a' I. apply G. right. exact I.
Qed.

(** X18: when the response body is a JSON array, a method that returns a
    list returns one typed item per element of the array, in the order of
    the array, each the deserialisation of its element; and it returns a
    list only if every element deserialises. *)
Theorem listing_validates_each
    transport model_validate self c p model tr r items ys :
  listing_model c = Some model ->
  prepare c = Return p ->
  transport tr (request_for self (p_method p) (p_endpoint p) (p_kwargs p)) =
    Responded r ->
  200 <= status_code r < 300 -> status_code r <> 204 ->
  json_outcome r = inr (PyList items) ->
  (fst (invoke transport model_validate self c tr) = Return (PyList ys) <->
   Forall2 (fun x y => model_validate model x = Return y) items ys).
Proof.
  intros L P H I N J.
  destruct (listing_prepared c model L) as [endpoint P'].
  assert (p_post p = validate_each model) as Q
      by (rewrite P in P'; injection P' as ->; reflexivity).
  rewrite (invoke_return _ _ _ _ p _ _ _ P
             (dispatch_2xx_json _ _ _ _ _ _ r _ H I N J)).
  rewrite Q. cbn [fst finish py_iter].
  rewrite <- map_result_Forall2.
  destruct (map_result (model_validate model) items) as [zs | e].
  - split; intros E; injection E as <-; reflexivity.
  - split; discriminate.
Qed.

Lemma listing_validates_each_witness :
  fst (invoke
         (always (Responded
                    (mkResponse 200 "[1, 2]" (inr (PyList [PyInt 1; PyInt 2])))))
         accept_int sample_client get_topic_interests []) =
  Return (PyList [PyInt 1; PyInt 2]).
Proof.
  apply (proj2 (listing_validates_each _ accept_int sample_client
                  get_topic_interests
                  (mkPrepared "GET" "/api/user/topic-interests" no_kwargs
                     (validate_each "TopicInterest"))
                  "TopicInterest" []
                  (mkResponse 200 "[1, 2]" (inr (PyList [PyInt 1; PyInt 2])))
                  [PyInt 1; PyInt 2] [PyInt 1; PyInt 2]
                  eq_refl eq_refl eq_refl
                  ltac:(cbn; lia) ltac:(cbn; lia) eq_refl)).
  repeat constructor.
Defined.

(** X19: when some element of the array fails to deserialise, a method
    that returns a list raises the error of the first such element and
    returns no partial list. *)
Theorem listing_first_failure
    transport model_validate self c p model tr r pre x post e :
  listing_model c = Some model ->
  prepare c = Return p ->
  transport tr (request_for self (p_method p) (p_endpoint p) (p_kwargs p)) =
    Responded r ->
  200 <= status_code r < 300 -> status_code r <> 204 ->
  json_outcome r = inr (PyList (pre ++ x :: post)) ->
  (forall a, In a pre -> exists b, model_validate model a = Return b) ->
  model_validate model x = Raise e ->
  fst (invoke transport model_validate self c tr) = Raise e.
Proof.
  intros L P H I N J G X.
  destruct (listing_prepared c model L) as [endpoint P'].
  assert (p_post p = validate_each model) as Q
      by (rewrite P in P'; injection P' as ->; reflexivity).
  rewrite (invoke_return _ _ _ _ p _ _ _ P
             (dispatch_2xx_json _ _ _ _ _ _ r _ H I N J)).
  rewrite Q. cbn [fst finish py_iter].
  rewrite (map_result_first_failure _ pre x post e G X). reflexivity.
Qed.

Lemma listing_first_failure_witness :
  fst (invoke
         (always (Responded
                    (mkResponse 200 "[1, null, 3]"
                       (inr (PyList [PyInt 1; PyNone; PyInt 3])))))
         accept_int sample_client get_export_settings []) =
  Raise (ValidationError "ExportConfiguration").
Proof.
  apply (listing_first_failure _ accept_int sample_client get_export_settings
           (mkPrepared "GET" "/api/user/export/settings" no_kwargs
              (validate_each "ExportConfiguration"))
           "ExportConfiguration" []
           (mkResponse 200 "[1, null, 3]"
              (inr (PyList [PyInt 1; PyNone; PyInt 3])))
           [PyInt 1] PyNone [PyInt 3]);
    [reflexivity | reflexivity | reflexivity | cbn; lia | cbn; lia
    | reflexivity | | reflexivity].
  intros a [<- | []]. exists (PyInt 1). reflexivity.
Defined.

(** X20: the [delete_*] methods and [mark_notifications_read] never
    consult the deserialiser: their outcome and their effects are the same
    under any two deserialisers. *)
Theorem no_deserialisation transport validate1 validate2 self c tr :
  is_deletion c = true \/ (exists ids, c = mark_notifications_read ids) ->
  invoke transport validate1 self c tr = invoke transport validate2 self c tr.
Proof.
  intros [D | [ids ->]].
  - unfold invoke, bind, lift.
    destruct (prepare c) as [p | e] eqn:P; [| reflexivity].
    destruct (deletion_prepared c p D P) as [_ [_ Q]]. rewrite Q.
    destruct (_request _ _ _ _ _ _) as [[d | e] tr']; reflexivity.
  - unfold invoke, bind, lift. cbn [prepare p_method p_endpoint p_kwargs p_post].
    destruct (_request _ _ _ _ _ _) as [[d | e] tr']; reflexivity.
Qed.

Lemma no_deserialisation_witness :
  invoke (always (Responded ok_object)) accept_any sample_client
    (mark_notifications_read PyNone) [] =
  invoke (always (Responded ok_object)) reject_all sample_client
    (mark_notifications_read PyNone) [].
Proof.
  apply (no_deserialisation (always (Responded ok_object)) accept_any reject_all
           sample_client (mark_notifications_read PyNone) []).
  right. exists PyNone. reflexivity.
Defined.

(** ** Routes *)

Lemma uint_no_slash d : has_slash (NilEmpty.string_of_uint d) = false.
Proof. induction d; cbn; auto. Qed.

Lemma str_int_no_slash z : has_slash (str_int z) = false.
Proof.
  unfold str_int, NilZero.string_of_int, NilZero.string_of_uint.
  destruct (Z.to_int z) as [d | d]; destruct d; cbn; auto using uint_no_slash.
Qed.

Lemma str_int_inj a b : str_int a = str_int b -> a = b.
Proof.
  unfold str_int. intros E. apply DecimalZ.to_int_inj.
  assert (N : forall z, Z.to_int z <> Decimal.Pos Decimal.Nil /\
                        Z.to_int z <> Decimal.Neg Decimal.Nil).
  { intros [| q | q]; cbn; split; try discriminate;
      intros Q; injection Q as Q;
      exact (DecimalPos.Unsigned.to_uint_nonnil q Q). }
  apply (f_equal NilZero.int_of_string) in E.
  rewrite !NilZero.isi in E by apply N.
  injection E as E. exact E.
Qed.

Lemma has_slash_app_slash y t : has_slash (y ++ String "/" t) = true.
Proof.
  induction y as [| c y IH]; cbn; [reflexivity|].
  rewrite IH. apply orb_true_r.
Qed.

Lemma split_at_slash x y s t :
  has_slash x = false -> has_slash y = false ->
  x ++ String "/" s = y ++ String "/" t -> x = y /\ s = t.
Proof.
  revert y. induction x as [| c x IH]; intros [| c' y] X Y E; cbn in *.
  - injection E as E. auto.
  - injection E as <- _. cbn in Y. discriminate Y.
  - injection E as -> _. cbn in X. discriminate X.
  - injection E as <- E. apply orb_false_iff in X as [_ X], Y as [_ Y].
    destruct (IH y X Y E) as [-> ->]. auto.
Qed.

Ltac strip_common_prefix E :=
  cbn [append] in E;
  repeat first [ discriminate E | injection E as E ].

Ltac same_route E :=
  first
    [ apply str_int_inj in E; subst; split; reflexivity
    | apply split_at_slash in E; [| apply str_int_no_slash ..];
      destruct E as [E E']; apply str_int_inj in E; subst;
      first [ discriminate E' | split; reflexivity ]
    | apply (f_equal has_slash) in E;
      rewrite ?str_int_no_slash, ?has_slash_app_slash in E; discriminate E
    | split; reflexivity ].

(** X21: routes do not collide: two accepted calls that use the same HTTP
    method on the same endpoint are calls of the same method of the client
    with the same identifier in the path. *)
Theorem routes_do_not_collide c1 c2 p1 p2 :
  prepare c1 = Return p1 ->
  prepare c2 = Return p2 ->
  p_method p1 = p_method p2 ->
  p_endpoint p1 = p_endpoint p2 ->
  operation_name c1 = operation_name c2 /\
  path_parameter c1 = path_parameter c2.
Proof.
  intros P1 P2 M E.
  destruct c1; accepted P1; injection P1 as <-;
    destruct c2; accepted P2; injection P2 as <-;
    cbn [p_method p_endpoint] in M, E; try discriminate M; clear M;
    cbn [operation_name path_parameter];
    strip_common_prefix E; same_route E.
Qed.

Lemma routes_do_not_collide_witness :
  operation_name (get_ai_insights 3 (PyBool false)) =
  operation_name (get_ai_insights 3 (PyBool true)) /\
  path_parameter (get_ai_insights 3 (PyBool false)) =
  path_parameter (get_ai_insights 3 (PyBool true)).
Proof.
  exact (routes_do_not_collide
           (get_ai_insights 3 (PyBool false)) (get_ai_insights 3 (PyBool true))
           (mkPrepared "GET" "/api/trends/3/ai-insights"
              (kw_params [ ("force_refresh", PyBool false) ])
              (validate_if_truthy "AIInsight"))
           (mkPrepared "GET" "/api/trends/3/ai-insights"
              (kw_params [ ("force_refresh", PyBool true) ])
              (validate_if_truthy "AIInsight"))
           eq_refl eq_refl eq_refl eq_refl).
Defined.

(** X22: a method that returns one typed record deserialises exactly what
    the dispatch returned: the decoded body of a response with a status in
    [200, 300), and [None] when that response is 204. *)
Theorem record_method_deserialises
    transport model_validate self c p model tr r :
  prepare c = Return p ->
  p_post p = validate model ->
  transport tr (request_for self (p_method p) (p_endpoint p) (p_kwargs p)) =
    Responded r ->
  200 <= status_code r < 300 ->
  (status_code r = 204 ->
   fst (invoke transport model_validate self c tr) =
   model_validate model PyNone) /\
  (forall v, status_code r <> 204 -> json_outcome r = inr v ->
   fst (invoke transport model_validate self c tr) = model_validate model v).
Proof.
  intros P Q H I. split.
  - intros E.
    rewrite (invoke_return _ _ _ _ p _ _ _ P (dispatch_204 _ _ _ _ _ _ r H E)).
    rewrite Q. reflexivity.
  - intros v N J.
    rewrite (invoke_return _ _ _ _ p _ _ _ P
               (dispatch_2xx_json _ _ _ _ _ _ r v H I N J)).
    rewrite Q. reflexivity.
Qed.

Lemma record_method_deserialises_witness :
  fst (invoke (always (Responded no_content)) accept_int sample_client
         (run_export_now 5) []) =
  Raise (ValidationError "ExportExecutionLog").
Proof.
  assert (I : 200 <= status_code no_content < 300) by (cbn; lia).
  exact (proj1 (record_method_deserialises (always (Responded no_content))
                  accept_int sample_client (run_export_now 5)
                  (mkPrepared "POST" "/api/user/export/configurations/5/run-now"
                     no_kwargs (validate "ExportExecutionLog"))
                  "ExportExecutionLog" [] no_content eq_refl eq_refl eq_refl I)
           eq_refl).
Defined.
